(** * nat_mcp_template: the PDF reader and the LLM summarizer

    A shallow embedding of the two tool functions of the repository,
    [read_pdf] (pdf_reader_function.py) and [summarize_text]
    (llm_summarizer_function.py), and the properties their specification
    states about them.

    Python strings are sequences of Unicode code points, exceptions and
    the calls to the outside world (the file system, PyMuPDF, the logger,
    the LLM) are threaded through a small trace-and-exception monad. *)

From Stdlib Require Import ZArith NArith List String Ascii Lia Bool.
From Stdlib Require Import DecimalString DecimalZ DecimalPos.
From stdpp Require Import base option list gmap.

Local Open Scope Z_scope.

(** ** Python values the two functions compute with *)

Module Py.

(** A [str] is a sequence of code points; [len] and slicing count code
    points. *)
Abbreviation pychar := N (only parsing).
Abbreviation pystr := (list N) (only parsing).

(** String literals of the source, which are all ASCII. *)
Definition lit (s : string) : pystr :=
  List.map N_of_ascii (list_ascii_of_string s).

(** [chr(10)] *)
Definition nl : pystr := [10%N].

(** [s[:n]]: the first [n] code points, or all but the last [-n] when
    [n] is negative. *)
Definition slice_to (n : Z) (s : pystr) : pystr :=
  if 0 <=? n then take (Z.to_nat n) s
  else take (length s - Z.to_nat (- n)) s.

(** [str.isspace] on one code point: the code points CPython's
    [_PyUnicode_IsWhitespace] accepts. *)
Definition isspace (c : pychar) : bool :=
  ((9 <=? c) && (c <=? 13) || (28 <=? c) && (c <=? 32)
   || (c =? 133) || (c =? 160) || (c =? 5760)
   || (8192 <=? c) && (c <=? 8202)
   || (c =? 8232) || (c =? 8233) || (c =? 8239) || (c =? 8287)
   || (c =? 12288))%N.

Fixpoint lstrip (s : pystr) : pystr :=
  match s with
  | c :: s' => if isspace c then lstrip s' else s
  | [] => []
  end.

Definition rstrip (s : pystr) : pystr := rev (lstrip (rev s)).

(** [s.strip()] *)
Definition strip (s : pystr) : pystr := rstrip (lstrip s).

(** Truth value of a [str]: the empty string is falsy. *)
Definition truthy (s : pystr) : bool :=
  match s with [] => false | _ :: _ => true end.

(** [str(n)] and the [{n}] of an f-string, for an [int]. *)
Definition str_of_int (z : Z) : pystr :=
  lit (NilZero.string_of_int (Z.to_int z)).

(** [sep.join(parts)] *)
Fixpoint join (sep : pystr) (parts : list pystr) : pystr :=
  match parts with
  | [] => []
  | [p] => p
  | p :: rest => p ++ sep ++ join sep rest
  end.

(** [a or b] for an [int | None] on the left and an [int] on the right:
    [None] and [0] are falsy. *)
Definition or_int (a : option Z) (b : Z) : Z :=
  match a with
  | None => b
  | Some 0 => b
  | Some n => n
  end.

(** [range(n)]: empty when [n <= 0]. *)
Definition range (n : Z) : list Z := seqZ 0 n.

(** Is [needle] a prefix of [s]; does it occur in [s]. *)
Fixpoint startswith (needle s : pystr) : bool :=
  match needle, s with
  | [], _ => true
  | _ :: _, [] => false
  | a :: needle', b :: s' => (a =? b)%N && startswith needle' s'
  end.

Fixpoint contains (needle s : pystr) : bool :=
  startswith needle s ||
  match s with
  | [] => false
  | _ :: s' => contains needle s'
  end.

(** *** Exceptions *)

Inductive exn_class :=
| ImportError
| ModuleNotFoundError
| FileNotFoundError
| RuntimeError
| TypeError
| OtherException (name : pystr)
| CancelledError
| KeyboardInterrupt.

(** An exception object: its class and what [str(e)] gives. *)
Record exn := mk_exn { exn_type : exn_class; exn_str : pystr }.

(** [isinstance(e, ImportError)]: [ModuleNotFoundError] is a subclass. *)
Definition is_ImportError (e : exn) : bool :=
  match exn_type e with
  | ImportError | ModuleNotFoundError => true
  | _ => false
  end.

(** [isinstance(e, Exception)]: everything but the [BaseException]-only
    classes. *)
Definition is_Exception (e : exn) : bool :=
  match exn_type e with
  | CancelledError | KeyboardInterrupt => false
  | _ => true
  end.

(** *** Effects: a trace of calls to the outside, and exceptions *)

Inductive log_level := INFO | ERROR.

Inductive event :=
| EvLog (level : log_level) (msg : pystr)
| EvPathExists (path : pystr)
| EvFitzOpen (path : pystr)
| EvGetText (page_num : Z)
| EvDocClose
| EvLlmInvoke (prompt : pystr).

Inductive outcome (A : Type) :=
| Return (a : A)
| Raise (e : exn).
Arguments Return {A} a.
Arguments Raise {A} e.

(** A computation extends the trace it is given and returns or raises;
    the events recorded before a [Raise] stay in the trace. *)
Definition M (A : Type) : Type := list event -> outcome A * list event.

Definition ret {A} (a : A) : M A := fun tr => (Return a, tr).
Definition raise {A} (e : exn) : M A := fun tr => (Raise e, tr).
Definition bind {A B} (m : M A) (k : A -> M B) : M B :=
  fun tr =>
    match m tr with
    | (Return a, tr') => k a tr'
    | (Raise e, tr') => (Raise e, tr')
    end.
Definition emit (ev : event) : M unit := fun tr => (Return tt, tr ++ [ev]).

(** The result of a call into a library, lifted into the monad. *)
Definition lift {A} (o : outcome A) : M A := fun tr => (o, tr).

(** [try: body / except ...: handler], the handler deciding per
    exception whether it applies. *)
Definition try_except {A} (body : M A) (handler : exn -> M A) : M A :=
  fun tr =>
    match body tr with
    | (Return a, tr') => (Return a, tr')
    | (Raise e, tr') => handler e tr'
    end.

Definition run {A} (m : M A) : outcome A * list event := m [].

(** [logger.info(msg)], [logger.error(msg)] *)
Definition logger_info (msg : pystr) : M unit := emit (EvLog INFO msg).
Definition logger_error (msg : pystr) : M unit := emit (EvLog ERROR msg).

End Py.

Import Py.

Notation "'let!' x ':=' m 'in' k" := (bind m (fun x => k))
  (at level 10, x name, m at level 100, k at level 200).
Notation "m '>>' k" := (bind m (fun _ => k))
  (at level 60, right associativity).

(** ** llm_summarizer_function.py *)

Module LlmSummarizer.

Record LLMSummarizerConfig := {
  description : pystr;
  llm_name : pystr;
  max_summary_length : Z;
  include_key_points : bool;
  summary_style : pystr;
}.

(** The field defaults of the configuration class; [llm_name] has none. *)
Definition default_config (llm_name : pystr) : LLMSummarizerConfig :=
  {| description := lit "Generates a detailed summary of the provided text";
     llm_name := llm_name;
     max_summary_length := 500;
     include_key_points := true;
     summary_style := lit "comprehensive" |}.

(** The literal dict of [summarize_text]. *)
Definition style_instructions : gmap pystr pystr :=
  <[lit "brief" := lit "Create a brief, concise summary in 2-3 sentences."]>
  (<[lit "comprehensive" :=
       lit "Create a comprehensive summary that captures all major points."]>
  (<[lit "detailed" :=
       lit "Create a detailed summary with thorough analysis of all key aspects."]>
   ∅)).

(** [style_instructions.get(config.summary_style,
                            style_instructions["comprehensive"])] *)
Definition style_instruction (config : LLMSummarizerConfig) : pystr :=
  default (style_instructions !!! lit "comprehensive")
          (style_instructions !! summary_style config).

Definition key_points_instruction (config : LLMSummarizerConfig) : pystr :=
  if include_key_points config
  then nl ++ nl ++ lit "After the summary, provide 5-7 key points as bullet points."
  else [].

(** The replacement field of the output-format section. *)
Definition key_points_format (config : LLMSummarizerConfig) : pystr :=
  if include_key_points config
  then lit "## Key Points" ++ nl ++ lit "- [Point 1]" ++ nl
       ++ lit "- [Point 2]" ++ nl ++ lit "..."
  else [].

(** [{"..." if len(text) > 10000 else ""}] *)
Definition truncation_marker (text : pystr) : pystr :=
  if (10000 <? Z.of_nat (length text)) then lit "..." else [].

(** The template up to the embedded text. *)
Definition prompt_head (config : LLMSummarizerConfig) : pystr :=
  lit "You are an expert at analyzing and summarizing documents." ++ nl
  ++ nl
  ++ lit "Please analyze the following text and provide a summary." ++ nl
  ++ nl
  ++ style_instruction config ++ nl
  ++ lit "Target length: approximately "
  ++ str_of_int (max_summary_length config)
  ++ lit " words." ++ key_points_instruction config ++ nl
  ++ nl
  ++ lit "Format your response as:" ++ nl
  ++ nl
  ++ lit "## Summary" ++ nl
  ++ lit "[Your summary here]" ++ nl
  ++ key_points_format config ++ nl
  ++ nl
  ++ lit "Text to summarize:" ++ nl
  ++ lit "---" ++ nl.

(** What the template has on the line of the embedded text, after it. *)
Definition excerpt_line_rest : pystr :=
  lit "  # Limit input to avoid token limits".

(** The template after the truncation-marker field. *)
Definition prompt_foot : pystr :=
  nl ++ lit "---" ++ nl ++ nl ++ lit "Summary:".

(** The f-string [prompt] of [summarize_text]. *)
Definition build_prompt (config : LLMSummarizerConfig) (text : pystr) : pystr :=
  prompt_head config
  ++ slice_to 10000 text ++ excerpt_line_rest ++ nl
  ++ truncation_marker text
  ++ prompt_foot.

#[local] Set Warnings "-register-all".

(** A value a response can carry in its [content] attribute. *)
Inductive pyval :=
| PyNone
| PyStr (s : pystr)
| PyInt (z : Z)
| PyList (items : list pyval).

(** A backend response as [summarize_text] observes it:
    [resp_content] is [Some v] when [hasattr(response, 'content')] holds,
    with [v] the value of [response.content]; [resp_str] is what
    [str(response)] gives. *)
Record response := {
  resp_content : option pyval;
  resp_str : pystr;
}.

(** A response that is itself a plain [str]: no [content] attribute, and
    [str] is the identity on it. *)
Definition plain_string (s : pystr) : response :=
  {| resp_content := None; resp_str := s |}.

(** [len(v)]: [None] and [int] have no length. *)
Definition py_len (v : pyval) : outcome Z :=
  match v with
  | PyStr s => Return (Z.of_nat (length s))
  | PyList items => Return (Z.of_nat (length items))
  | PyNone =>
      Raise (mk_exn TypeError (lit "object of type 'NoneType' has no len()"))
  | PyInt _ =>
      Raise (mk_exn TypeError (lit "object of type 'int' has no len()"))
  end.

(** The LangChain model the builder hands out: what [llm.ainvoke(prompt)]
    gives for each prompt. *)
Definition llm_client := pystr -> outcome response.

Definition ainvoke (llm : llm_client) (prompt : pystr) : M response :=
  emit (EvLlmInvoke prompt) >> lift (llm prompt).

(** Lines 117-121: the content attribute when there is one, otherwise
    [str(response)]. *)
Definition normalize (r : response) : pyval :=
  match resp_content r with
  | Some content => content
  | None => PyStr (resp_str r)
  end.

Definition summarize_text_body (config : LLMSummarizerConfig)
    (llm : llm_client) (text : pystr) : M pyval :=
  let prompt := build_prompt config text in
  logger_info (lit "Generating summary using LLM (style: "
               ++ summary_style config ++ lit ")") >>
  let! response := ainvoke llm prompt in
  let summary := normalize response in
  let! n := lift (py_len summary) in
  logger_info (lit "Generated summary of " ++ str_of_int n
               ++ lit " characters") >>
  ret summary.

(** [except Exception as e] *)
Definition summarize_text_handler (e : exn) : M pyval :=
  if is_Exception e then
    let error_msg := lit "Error generating summary: " ++ exn_str e in
    logger_error error_msg >>
    raise (mk_exn RuntimeError error_msg)
  else raise e.

Definition summarize_text (config : LLMSummarizerConfig)
    (llm : llm_client) (text : pystr) : M pyval :=
  try_except (summarize_text_body config llm text) summarize_text_handler.

End LlmSummarizer.

(** ** pdf_reader_function.py *)

Module PdfReader.

Record PDFReaderConfig := {
  description : pystr;
  max_pages : option Z;
}.

(** The field defaults of the configuration class. *)
Definition default_config : PDFReaderConfig :=
  {| description := lit "Reads a PDF file and extracts text content";
     max_pages := None |}.

(** An opened document: for each page, what [doc[i].get_text()] gives. *)
Abbreviation document := (list (outcome pystr)) (only parsing).

(** What [os.stat] finds at a path, as far as [Path.exists()] tells the
    cases apart. *)
Inductive path_status :=
| IsFile
    (* a regular file *)
| IsOther
    (* a directory or another node that is not a regular file; the empty
       string is the current directory *)
| NoEntry
    (* no such entry: ENOENT, ENOTDIR, EBADF, ELOOP, or a path that
       cannot be one *)
| StatError (msg : pystr)
    (* another [OSError], with its [str]: the name is too long, a
       directory on the way cannot be searched *).

(** What [read_pdf] finds outside: whether PyMuPDF can be imported, what
    is at each path, and what [fitz.open] gives for a path. *)
Record world := {
  fitz_installed : bool;
  path_status_of : pystr -> path_status;
  fitz_open : pystr -> outcome document;
}.

(** [Path(path).exists()]: [True] for whatever is there, file or not,
    [False] when nothing is; an [OSError] other than the no-entry ones is
    raised again (up to Python 3.13). *)
Definition path_exists (w : world) (path : pystr) : outcome bool :=
  match path_status_of w path with
  | IsFile | IsOther => Return true
  | NoEntry => Return false
  | StatError msg => Raise (mk_exn (OtherException (lit "OSError")) msg)
  end.

Definition import_fitz (w : world) : M unit :=
  if fitz_installed w then ret tt
  else raise (mk_exn ModuleNotFoundError (lit "No module named 'fitz'")).

Definition exists_ (w : world) (path : pystr) : M bool :=
  emit (EvPathExists path) >> lift (path_exists w path).

Definition open_ (w : world) (path : pystr) : M document :=
  emit (EvFitzOpen path) >> lift (fitz_open w path).

Definition close (doc : document) : M unit := emit EvDocClose.

(** [doc[page_num].get_text()] *)
Definition get_text (doc : document) (page_num : Z) : M pystr :=
  emit (EvGetText page_num) >>
  match doc !! Z.to_nat page_num with
  | Some page => lift page
  | None => raise (mk_exn (OtherException (lit "IndexError"))
                          (lit "page not in document"))
  end.

(** [f"--- Page {page_num + 1} ---\n{text}"] *)
Definition page_block (page_num : Z) (text : pystr) : pystr :=
  lit "--- Page " ++ str_of_int (page_num + 1) ++ lit " ---" ++ nl ++ text.

(** The [for] loop over the page numbers still to visit, with the list
    [text_content] built so far. *)
Fixpoint scan_pages (doc : document) (page_nums : list Z)
    (text_content : list pystr) : M (list pystr) :=
  match page_nums with
  | [] => ret text_content
  | page_num :: rest =>
      let! text := get_text doc page_num in
      if truthy (strip text)
      then scan_pages doc rest (text_content ++ [page_block page_num text])
      else scan_pages doc rest text_content
  end.

(** Lines 72-80: the list [text_content] after the loop. *)
Definition extract_pages (config : PDFReaderConfig) (doc : document)
    : M (list pystr) :=
  let len_doc := Z.of_nat (length doc) in
  let max_pages := or_int (max_pages config) len_doc in
  scan_pages doc (range (Z.min len_doc max_pages)) [].

Definition no_text_found : pystr := lit "No text content found in PDF".

Definition read_pdf_body (config : PDFReaderConfig) (w : world)
    (pdf_path : pystr) : M pystr :=
  import_fitz w >>
  logger_info (lit "Reading PDF from: " ++ pdf_path) >>
  let! found := exists_ w pdf_path in
  (if negb found
   then raise (mk_exn FileNotFoundError (lit "PDF file not found: " ++ pdf_path))
   else ret tt) >>
  let! doc := open_ w pdf_path in
  let! text_content := extract_pages config doc in
  close doc >>
  let full_text := join (nl ++ nl) text_content in
  if negb (truthy (strip full_text))
  then ret no_text_found
  else
    logger_info (lit "Successfully extracted "
                 ++ str_of_int (Z.of_nat (length full_text))
                 ++ lit " characters from PDF") >>
    ret full_text.

(** [except ImportError] first, then [except Exception as e]. *)
Definition read_pdf_handler (e : exn) : M pystr :=
  if is_ImportError e then
    let error_msg :=
      lit "PyMuPDF not installed. Please install with: pip install PyMuPDF" in
    logger_error error_msg >>
    raise (mk_exn RuntimeError error_msg)
  else if is_Exception e then
    let error_msg := lit "Error reading PDF: " ++ exn_str e in
    logger_error error_msg >>
    raise (mk_exn RuntimeError error_msg)
  else raise e.

Definition read_pdf (config : PDFReaderConfig) (w : world)
    (pdf_path : pystr) : M pystr :=
  try_except (read_pdf_body config w pdf_path) read_pdf_handler.

End PdfReader.

(** Reading a code-point string back as text, for the examples. *)
Definition unlit (s : pystr) : string :=
  string_of_list_ascii (List.map ascii_of_N s).

(** ** Vocabulary of the specification *)

(** Call counts on a trace: how often the LLM was invoked, the document
    opened, the handle closed. *)
Definition is_llm_invoke (ev : event) : bool :=
  match ev with EvLlmInvoke _ => true | _ => false end.
Definition is_fitz_open (ev : event) : bool :=
  match ev with EvFitzOpen _ => true | _ => false end.
Definition is_doc_close (ev : event) : bool :=
  match ev with EvDocClose => true | _ => false end.

Definition call_count (which : event -> bool) (tr : list event) : nat :=
  length (List.filter which tr).


(** The reader configuration with another page limit. *)
Definition with_max_pages (config : PdfReader.PDFReaderConfig)
    (limit : option Z) : PdfReader.PDFReaderConfig :=
  {| PdfReader.description := PdfReader.description config;
     PdfReader.max_pages := limit |}.

(** The response shapes the specification lets the backend produce: a
    value exposing a textual content field, or a plain string. *)
Inductive legal_response : LlmSummarizer.response -> Prop :=
| legal_structured (content shown : pystr) :
    legal_response {| LlmSummarizer.resp_content := Some (LlmSummarizer.PyStr content);
                      LlmSummarizer.resp_str := shown |}
| legal_text (s : pystr) :
    legal_response (LlmSummarizer.plain_string s).

(** The text of a page is blank: empty, or white space only. *)
Definition blank (text : pystr) : bool := forallb isspace text.

(** The marker of the page with 1-based number [n]. *)
Definition page_marker (n : nat) : pystr :=
  lit "--- Page " ++ str_of_int (Z.of_nat n) ++ lit " ---" ++ nl.

(** Page texts paired with their page numbers, the first one being
    number [first]. *)
Definition numbered (first : nat) (texts : list pystr) : list (nat * pystr) :=
  zip (seq first (length texts)) texts.

(** The page blocks the specification describes for the texts of the
    pages scanned: blank pages dropped, the others in page order, each
    under the marker of its own page number. *)
Definition page_blocks (first : nat) (texts : list pystr) : list pystr :=
  (fun p => page_marker p.1 ++ p.2)
    <$> List.filter (fun p => negb (blank p.2)) (numbered first texts).

(** The string the extraction returns for a list of page blocks. *)
Definition extraction_result (blocks : list pystr) : pystr :=
  match blocks with
  | [] => PdfReader.no_text_found
  | _ :: _ => join (nl ++ nl) blocks
  end.

(** A page that can be read and has text that is not blank. *)
Definition nonblank_page (page : outcome pystr) : bool :=
  match page with
  | Return text => negb (blank text)
  | Raise _ => false
  end.

(** The number of pages [read_pdf] visits in a document of [len_doc]
    pages. *)
Definition pages_scanned (config : PdfReader.PDFReaderConfig)
    (len_doc : nat) : nat :=
  Z.to_nat (Z.min (Z.of_nat len_doc)
                  (or_int (PdfReader.max_pages config) (Z.of_nat len_doc))).

(** The calls [get_text] of a scan of the first [n] pages. *)
Definition get_text_calls (first n : nat) : list event :=
  (fun i => EvGetText (Z.of_nat i)) <$> seq first n.

(** The messages logged at level ERROR, in order. *)
Definition error_logs (tr : list event) : list pystr :=
  omap (fun ev => match ev with EvLog ERROR msg => Some msg | _ => None end) tr.

(** The page numbers [get_text] was called for, in call order. *)
Definition get_text_pages (tr : list event) : list Z :=
  omap (fun ev => match ev with EvGetText n => Some n | _ => None end) tr.

(** Does the character occur in the string. *)
Definition has_char (c : pychar) (s : pystr) : bool := existsb (N.eqb c) s.

(** The characters of a decimal numeral: the digits and the minus sign. *)
Definition numeral_char (c : pychar) : bool :=
  ((c =? 45) || (48 <=? c) && (c <=? 57))%N.

(** The world in which [fitz.open] gives only the first [k] pages of
    every document. *)
Definition first_pages (k : nat) (w : PdfReader.world) : PdfReader.world :=
  {| PdfReader.fitz_installed := PdfReader.fitz_installed w;
     PdfReader.path_status_of := PdfReader.path_status_of w;
     PdfReader.fitz_open := fun path =>
       match PdfReader.fitz_open w path with
       | Return doc => Return (take k doc)
       | Raise e => Raise e
       end |}.

(** * Properties *)

(** ** The two functions on concrete inputs *)

Example build_prompt_default :
  unlit (LlmSummarizer.build_prompt
           (LlmSummarizer.default_config (lit "llm")) (lit "hello"))
  = "You are an expert at analyzing and summarizing documents.

Please analyze the following text and provide a summary.

Create a comprehensive summary that captures all major points.
Target length: approximately 500 words.

After the summary, provide 5-7 key points as bullet points.

Format your response as:

## Summary
[Your summary here]
## Key Points
- [Point 1]
- [Point 2]
...

Text to summarize:
---
hello  # Limit input to avoid token limits

---

Summary:"%string.
Proof. vm_compute. reflexivity. Qed.

Example build_prompt_brief_no_key_points :
  unlit (LlmSummarizer.build_prompt
           {| LlmSummarizer.description := [];
              LlmSummarizer.llm_name := lit "llm";
              LlmSummarizer.max_summary_length := 120;
              LlmSummarizer.include_key_points := false;
              LlmSummarizer.summary_style := lit "brief" |}
           (lit "hello"))
  = "You are an expert at analyzing and summarizing documents.

Please analyze the following text and provide a summary.

Create a brief, concise summary in 2-3 sentences.
Target length: approximately 120 words.

Format your response as:

## Summary
[Your summary here]


Text to summarize:
---
hello  # Limit input to avoid token limits

---

Summary:"%string.
Proof. vm_compute. reflexivity. Qed.

Example read_pdf_three_pages :
  let w := {| PdfReader.fitz_installed := true;
              PdfReader.path_status_of := fun _ => PdfReader.IsFile;
              PdfReader.fitz_open := fun _ =>
                Return [Return (lit "first page"); Return (lit "  ");
                        Return (lit "third page")] |} in
  run (PdfReader.read_pdf PdfReader.default_config w (lit "a.pdf"))
  = (Return (lit "--- Page 1 ---
first page

--- Page 3 ---
third page"),
     [EvLog INFO (lit "Reading PDF from: a.pdf");
      EvPathExists (lit "a.pdf"); EvFitzOpen (lit "a.pdf");
      EvGetText 0; EvGetText 1; EvGetText 2; EvDocClose;
      EvLog INFO (lit "Successfully extracted 52 characters from PDF")]).
Proof. vm_compute. reflexivity. Qed.

Example read_pdf_limit_two :
  let w := {| PdfReader.fitz_installed := true;
              PdfReader.path_status_of := fun _ => PdfReader.IsFile;
              PdfReader.fitz_open := fun _ =>
                Return [Return (lit "first page"); Return (lit "  ");
                        Return (lit "third page")] |} in
  run (PdfReader.read_pdf (with_max_pages PdfReader.default_config (Some 2))
         w (lit "a.pdf"))
  = (Return (lit "--- Page 1 ---
first page"),
     [EvLog INFO (lit "Reading PDF from: a.pdf");
      EvPathExists (lit "a.pdf"); EvFitzOpen (lit "a.pdf");
      EvGetText 0; EvGetText 1; EvDocClose;
      EvLog INFO (lit "Successfully extracted 25 characters from PDF")]).
Proof. vm_compute. reflexivity. Qed.

Example read_pdf_not_installed :
  let w := {| PdfReader.fitz_installed := false;
              PdfReader.path_status_of := fun _ => PdfReader.IsFile;
              PdfReader.fitz_open := fun _ => Return [] |} in
  run (PdfReader.read_pdf PdfReader.default_config w (lit "a.pdf"))
  = (Raise (mk_exn RuntimeError
       (lit "PyMuPDF not installed. Please install with: pip install PyMuPDF")),
     [EvLog ERROR
        (lit "PyMuPDF not installed. Please install with: pip install PyMuPDF")]).
Proof. vm_compute. reflexivity. Qed.

(** A name longer than the file system takes: [Path.exists()] raises,
    inside the [try]. *)
Example read_pdf_name_too_long :
  let w := {| PdfReader.fitz_installed := true;
              PdfReader.path_status_of := fun _ =>
                PdfReader.StatError (lit "[Errno 36] File name too long: 'aaaa.pdf'");
              PdfReader.fitz_open := fun _ => Return [] |} in
  run (PdfReader.read_pdf PdfReader.default_config w (lit "aaaa.pdf"))
  = (Raise (mk_exn RuntimeError
       (lit "Error reading PDF: [Errno 36] File name too long: 'aaaa.pdf'")),
     [EvLog INFO (lit "Reading PDF from: aaaa.pdf");
      EvPathExists (lit "aaaa.pdf");
      EvLog ERROR
        (lit "Error reading PDF: [Errno 36] File name too long: 'aaaa.pdf'")]).
Proof. vm_compute. reflexivity. Qed.

(** A response whose [content] is [None] is passed on by the
    normalization, and [len] of it fails. *)
Example summarize_text_content_none :
  let r := {| LlmSummarizer.resp_content := Some LlmSummarizer.PyNone;
              LlmSummarizer.resp_str := lit "content=None" |} in
  (run (LlmSummarizer.summarize_text
          (LlmSummarizer.default_config (lit "llm"))
          (fun _ => Return r) (lit "hello"))).1
  = Raise (mk_exn RuntimeError
      (lit "Error generating summary: object of type 'NoneType' has no len()")).
Proof. vm_compute. reflexivity. Qed.

(** ** Strings *)

Section StringFacts.

Implicit Types (s t needle : pystr) (c : pychar).

Lemma lstrip_nil_iff s : lstrip s = [] <-> forallb isspace s = true.
Proof.
  induction s as [|c s IH]; simpl; [tauto|].
  destruct (isspace c); simpl; [exact IH|].
  split; discriminate.
Qed.

Lemma lstrip_blank s : forallb isspace (lstrip s) = forallb isspace s.
Proof.
  induction s as [|c s IH]; simpl; [reflexivity|].
  destruct (isspace c) eqn:Hc; simpl; [exact IH|].
  now rewrite Hc.
Qed.

Lemma forallb_rev (f : pychar -> bool) s : forallb f (rev s) = forallb f s.
Proof.
  induction s as [|c s IH]; simpl; [reflexivity|].
  rewrite forallb_app, IH. simpl. rewrite andb_true_r. apply andb_comm.
Qed.

Lemma truthy_false_iff s : truthy s = false <-> s = [].
Proof. destruct s; simpl; split; congruence. Qed.

Lemma rev_nil_iff s : rev s = [] <-> s = [].
Proof.
  split; [|now intros ->].
  intros H. apply (f_equal (@length _)) in H. rewrite length_rev in H.
  now destruct s.
Qed.

(** [if s.strip()] tests whether [s] has a character that is not white
    space. *)
Lemma strip_nil_iff s : strip s = [] <-> forallb isspace s = true.
Proof.
  unfold strip, rstrip.
  rewrite rev_nil_iff, lstrip_nil_iff, forallb_rev, lstrip_blank.
  reflexivity.
Qed.

(** [if s.strip()] tests whether [s] has a character that is not white
    space. *)
Lemma truthy_strip s : truthy (strip s) = negb (forallb isspace s).
Proof.
  destruct (forallb isspace s) eqn:Hs; simpl.
  - now apply truthy_false_iff, strip_nil_iff.
  - destruct (truthy (strip s)) eqn:Ht; [reflexivity|].
    apply truthy_false_iff, strip_nil_iff in Ht. congruence.
Qed.

Lemma startswith_app needle t : startswith needle (needle ++ t) = true.
Proof.
  induction needle as [|c needle IH]; simpl; [reflexivity|].
  now rewrite N.eqb_refl, IH.
Qed.

Lemma contains_startswith needle s :
  startswith needle s = true -> contains needle s = true.
Proof. intros H. destruct s; simpl; now rewrite H. Qed.

Lemma contains_app needle s t : contains needle (s ++ needle ++ t) = true.
Proof.
  induction s as [|c s IH].
  - simpl app. apply contains_startswith, startswith_app.
  - simpl. rewrite IH. apply orb_true_r.
Qed.

Lemma slice_to_nonneg n s : 0 <= n -> slice_to n s = take (Z.to_nat n) s.
Proof. intros H. unfold slice_to. now apply Z.leb_le in H as ->. Qed.

Lemma range_seq (n : Z) : range n = Z.of_nat <$> seq 0 (Z.to_nat n).
Proof.
  unfold range, seqZ. apply list_fmap_ext. intros _ i _. apply Z.add_0_r.
Qed.

End StringFacts.

(** ** The summarizer *)

Section Summarizer.

Import LlmSummarizer.

Implicit Types (config : LLMSummarizerConfig) (text style : pystr)
  (llm : llm_client) (r : response).

Lemma style_instructions_comprehensive :
  style_instructions !! lit "comprehensive"
  = Some (lit "Create a comprehensive summary that captures all major points.").
Proof.
  unfold style_instructions.
  rewrite lookup_insert_ne by discriminate. apply lookup_insert_eq.
Qed.


Lemma truncation_marker_over text :
  truncation_marker text = lit "..." <-> 10000 < Z.of_nat (length text).
Proof.
  unfold truncation_marker.
  destruct (Z.ltb_spec 10000 (Z.of_nat (length text))); split;
    (discriminate || lia || reflexivity).
Qed.

Lemma truncation_marker_within text :
  truncation_marker text = [] <-> Z.of_nat (length text) <= 10000.
Proof.
  unfold truncation_marker.
  destruct (Z.ltb_spec 10000 (Z.of_nat (length text))); split;
    (discriminate || lia || reflexivity).
Qed.

(** What one call of [summarize_text] does, by what the LLM answers. *)
Lemma summarize_text_run config llm text :
  let prompt := build_prompt config text in
  let tr0 := [EvLog INFO (lit "Generating summary using LLM (style: "
                          ++ summary_style config ++ lit ")");
              EvLlmInvoke prompt] in
  run (summarize_text config llm text) =
  match llm prompt with
  | Return r =>
      match py_len (normalize r) with
      | Return n =>
          (Return (normalize r),
           tr0 ++ [EvLog INFO (lit "Generated summary of " ++ str_of_int n
                               ++ lit " characters")])
      | Raise e => summarize_text_handler e tr0
      end
  | Raise e => summarize_text_handler e tr0
  end.
Proof.
  cbv [run summarize_text try_except summarize_text_body bind ainvoke
       logger_info emit lift ret].
  simpl app.
  destruct (llm (build_prompt config text)) as [r|e]; [|reflexivity].
  destruct (py_len (normalize r)); reflexivity.
Qed.


Lemma summarize_text_handler_trace e (tr : list event) :
  exists tr', (summarize_text_handler e tr).2 = tr ++ tr'.
Proof.
  unfold summarize_text_handler.
  destruct (is_Exception e).
  - eexists. reflexivity.
  - exists []. cbv [raise]. simpl. now rewrite app_nil_r.
Qed.

(** The prompt is what the backend is called with, whatever it answers. *)
Lemma summarize_text_sends_prompt config llm text :
  EvLlmInvoke (build_prompt config text)
    ∈ (run (summarize_text config llm text)).2.
Proof.
  rewrite summarize_text_run. cbv zeta.
  set (tr0 := [_; EvLlmInvoke _]).
  assert (Hin : EvLlmInvoke (build_prompt config text) ∈ tr0)
    by (apply elem_of_cons; right; apply elem_of_cons; now left).
  assert (Hh : forall e, EvLlmInvoke (build_prompt config text)
                           ∈ (summarize_text_handler e tr0).2).
  { intros e. destruct (summarize_text_handler_trace e tr0) as [tr' ->].
    apply elem_of_app. now left. }
  destruct (llm _) as [r|e]; [|apply Hh].
  destruct (py_len _); [|apply Hh].
  apply elem_of_app. now left.
Qed.

(** C1 (as stated) fails: with the default configuration the string
    "..." occurs in the prompt of the empty text, as the placeholder that
    ends the key-points format; and for a text of 10,001 characters what
    follows the embedded excerpt is not the marker. *)
Lemma marker_claim_counterexample :
  let config := default_config (lit "llm") in
  ~ (contains (lit "...") (build_prompt config []) = true
     <-> 10000 < Z.of_nat (length ([] : pystr)))
  /\ (let text := replicate (Z.to_nat 10001) 97%N in
      10000 < Z.of_nat (length text)
      /\ startswith (lit "...")
           (drop (length (prompt_head config ++ slice_to 10000 text))
                 (build_prompt config text)) = false).
Proof.
  split.
  - intros [H _]. simpl length in H.
    assert (Hc : contains (lit "...")
                   (build_prompt (default_config (lit "llm")) []) = true)
      by (vm_compute; reflexivity).
    specialize (H Hc). lia.
  - split; vm_compute; reflexivity.
Qed.

(** C1 (amended): the prompt starts with the template head and the first
    10,000 characters of the text and ends with a line break, the
    truncation-marker field and the template foot; the field is "..."
    exactly when the text is longer than 10,000 characters and empty
    exactly when it is not; and nothing of the text beyond its first
    10,000 characters reaches the prompt. *)
Theorem prompt_excerpt_and_marker config text :
  (prompt_head config ++ slice_to 10000 text)
    `prefix_of` build_prompt config text
  /\ slice_to 10000 text = take (Z.to_nat 10000) text
  /\ (nl ++ truncation_marker text ++ prompt_foot)
       `suffix_of` build_prompt config text
  /\ (truncation_marker text = lit "..." <-> 10000 < Z.of_nat (length text))
  /\ (truncation_marker text = [] <-> Z.of_nat (length text) <= 10000)
  /\ (forall text',
        slice_to 10000 text' = slice_to 10000 text ->
        (10000 <? Z.of_nat (length text')) = (10000 <? Z.of_nat (length text)) ->
        build_prompt config text' = build_prompt config text).
Proof.
  repeat split.
  - exists (excerpt_line_rest ++ nl ++ truncation_marker text ++ prompt_foot).
    unfold build_prompt. now rewrite <- !app_assoc.
  - exists (prompt_head config ++ slice_to 10000 text ++ excerpt_line_rest).
    unfold build_prompt. now rewrite <- !app_assoc.
  - apply truncation_marker_over.
  - apply truncation_marker_over.
  - apply truncation_marker_within.
  - apply truncation_marker_within.
  - intros text' Hs Hl. unfold build_prompt, truncation_marker.
    now rewrite Hs, Hl.
Qed.

Lemma prompt_excerpt_and_marker_witness :
  let config := default_config (lit "llm") in
  let text := replicate (Z.to_nat 10000) 97%N ++ lit "tail" in
  let text' := replicate (Z.to_nat 10000) 97%N ++ lit "other end" in
  build_prompt config text' = build_prompt config text.
Proof.
  intros config text text'.
  apply (prompt_excerpt_and_marker config text); vm_compute; reflexivity.
Defined.



(** C8: normalization gives the content attribute of a response that has
    one and [str(response)] otherwise; for a response of a shape the
    specification allows, that is a string, and [summarize_text] returns
    it. *)
Theorem normalize_response r :
  (forall content, resp_content r = Some content -> normalize r = content)
  /\ (resp_content r = None -> normalize r = PyStr (resp_str r))
  /\ (legal_response r ->
      exists s, normalize r = PyStr s
        /\ forall config llm text,
             llm (build_prompt config text) = Return r ->
             (run (summarize_text config llm text)).1 = Return (PyStr s)).
Proof.
  unfold normalize. repeat split.
  - now intros content ->.
  - now intros ->.
  - intros [content shown|s]; simpl.
    + exists content. split; [reflexivity|].
      intros config llm text Hllm.
      rewrite summarize_text_run. cbv zeta. now rewrite Hllm.
    + exists s. split; [reflexivity|].
      intros config llm text Hllm.
      rewrite summarize_text_run. cbv zeta. now rewrite Hllm.
Qed.

Lemma normalize_response_witness :
  let r := {| resp_content := Some (PyStr (lit "## Summary"));
              resp_str := lit "content='## Summary'" |} in
  normalize r = PyStr (lit "## Summary")
  /\ normalize (plain_string (lit "a summary")) = PyStr (lit "a summary")
  /\ exists s, normalize r = PyStr s
       /\ (run (summarize_text (default_config (lit "llm"))
                  (fun _ => Return r) (lit "some text"))).1 = Return (PyStr s).
Proof.
  intros r. split; [|split].
  - apply (normalize_response r). reflexivity.
  - apply (normalize_response (plain_string (lit "a summary"))). reflexivity.
  - destruct (normalize_response r) as (_ & _ & H).
    destruct (H (legal_structured _ _)) as (s & Hs & Hrun).
    exists s. split; [exact Hs|]. apply Hrun. reflexivity.
Defined.

(** C9: the text "  # Limit input to avoid token limits" is part of the
    prompt for every configuration and text: it follows the embedded
    excerpt on its line and comes before the line of the truncation
    marker, and the prompt that holds it is what the backend is called
    with. *)
Theorem prompt_contains_comment_text config text llm :
  build_prompt config text
  = prompt_head config
    ++ slice_to 10000 text ++ lit "  # Limit input to avoid token limits" ++ nl
    ++ truncation_marker text ++ nl ++ lit "---" ++ nl ++ nl ++ lit "Summary:"
  /\ contains (lit "  # Limit input to avoid token limits")
              (build_prompt config text) = true
  /\ EvLlmInvoke (build_prompt config text)
       ∈ (run (summarize_text config llm text)).2.
Proof.
  split; [reflexivity|]. split; [|apply summarize_text_sends_prompt].
  unfold build_prompt, excerpt_line_rest.
  rewrite (app_assoc (prompt_head config)).
  apply contains_app.
Qed.

(** A text within the bound is in the prompt as a whole. *)
Lemma build_prompt_contains_text config text :
  Z.of_nat (length text) <= 10000 ->
  contains text (build_prompt config text) = true.
Proof.
  intros Hlen. unfold build_prompt.
  rewrite slice_to_nonneg, take_ge by lia. apply contains_app.
Qed.

(** The trace of a call: the INFO log, the one call of the LLM, and
    after it log lines only. *)
Lemma summarize_text_trace config llm text :
  exists logs,
    (run (summarize_text config llm text)).2
    = [EvLog INFO (lit "Generating summary using LLM (style: "
                   ++ summary_style config ++ lit ")");
       EvLlmInvoke (build_prompt config text)] ++ logs
    /\ call_count is_llm_invoke logs = 0%nat.
Proof.
  rewrite summarize_text_run. cbv zeta.
  assert (Hh : forall e tr, exists logs,
            (summarize_text_handler e tr).2 = tr ++ logs
            /\ call_count is_llm_invoke logs = 0%nat).
  { intros e tr. unfold summarize_text_handler.
    destruct (is_Exception e).
    - eexists [_]. split; reflexivity.
    - exists []. split; [cbn; now rewrite app_nil_r|reflexivity]. }
  destruct (llm _) as [r|e]; [|apply Hh].
  destruct (py_len _); [|apply Hh].
  eexists [_]. split; reflexivity.
Qed.

End Summarizer.

(** ** The PDF reader *)

Section Reader.

Import PdfReader.

Implicit Types (config : PDFReaderConfig) (w : world) (doc : document)
  (path text : pystr) (texts blocks : list pystr) (tr : list event).

(** Unfold one call of [read_pdf] down to the calls it makes. *)
Ltac unfold_read_pdf :=
  cbv [run read_pdf try_except read_pdf_body import_fitz bind logger_info
       emit exists_ open_ lift ret raise close].

Lemma page_blocks_cons first text texts :
  page_blocks first (text :: texts)
  = (if blank text then [] else [page_marker first ++ text])
    ++ page_blocks (S first) texts.
Proof.
  unfold page_blocks, numbered. simpl.
  destruct (blank text); reflexivity.
Qed.

Lemma page_block_marker (n : nat) text :
  page_block (Z.of_nat n) text = page_marker (S n) ++ text.
Proof.
  unfold page_block, page_marker.
  rewrite Nat2Z.inj_succ, <- Z.add_1_r, <- !app_assoc. reflexivity.
Qed.

(** The loop, on pages that can all be read: it visits them in order and
    appends the block of each page that is not blank. *)
Lemma scan_pages_texts doc texts : forall start acc tr,
  (forall i text, texts !! i = Some text ->
                  doc !! (start + i)%nat = Some (Return text)) ->
  scan_pages doc (Z.of_nat <$> seq start (length texts)) acc tr
  = (Return (acc ++ page_blocks (S start) texts),
     tr ++ get_text_calls start (length texts)).
Proof.
  induction texts as [|text texts IH]; intros start acc tr Hdoc.
  - simpl. now rewrite !app_nil_r.
  - cbn [length seq fmap list_fmap scan_pages].
    cbv [bind get_text emit lift]. rewrite Nat2Z.id.
    pose proof (Hdoc 0%nat text eq_refl) as H0.
    rewrite Nat.add_0_r in H0. rewrite H0.
    assert (Hrest : forall i t, texts !! i = Some t ->
                      doc !! (S start + i)%nat = Some (Return t)).
    { intros i t Hi. specialize (Hdoc (S i) t Hi).
      now rewrite Nat.add_succ_r in Hdoc. }
    rewrite truthy_strip, page_blocks_cons. fold (blank text).
    unfold get_text_calls. cbn [seq fmap list_fmap].
    destruct (blank text); cbn [negb]; rewrite IH by exact Hrest;
      unfold get_text_calls; rewrite <- !app_assoc;
      [reflexivity|].
    now rewrite page_block_marker.
Qed.

Lemma pages_scanned_le config (n : nat) : (pages_scanned config n <= n)%nat.
Proof. unfold pages_scanned. lia. Qed.

(** Lines 72-80 on a document whose scanned pages can all be read:
    [texts] being what [get_text] gives for them, in page order. *)
Lemma extract_pages_texts config doc texts tr :
  take (pages_scanned config (length doc)) doc = Return <$> texts ->
  extract_pages config doc tr
  = (Return (page_blocks 1 texts),
     tr ++ get_text_calls 0 (pages_scanned config (length doc))).
Proof.
  intros Htake.
  assert (Hlen : length texts = pages_scanned config (length doc)).
  { apply (f_equal (@length _)) in Htake.
    rewrite length_take, length_fmap in Htake.
    pose proof (pages_scanned_le config (length doc)). lia. }
  unfold extract_pages. rewrite range_seq.
  fold (pages_scanned config (length doc)). rewrite <- Hlen.
  apply (scan_pages_texts doc texts 0%nat [] tr).
  intros i text Hi. simpl.
  assert (Hi' : (Return <$> texts) !! i = Some (Return text : outcome pystr))
    by (rewrite list_lookup_fmap, Hi; reflexivity).
  rewrite <- Htake in Hi'. apply lookup_take_Some in Hi'. tauto.
Qed.

(** Page blocks start with their marker, which is not white space, so
    the joined text of at least one block is not blank. *)
Lemma join_page_blocks_not_blank first texts :
  page_blocks first texts <> [] ->
  blank (join (nl ++ nl) (page_blocks first texts)) = false.
Proof.
  unfold page_blocks.
  destruct (List.filter _ _) as [|p [|q rest]]; intros Hne;
    [now destruct Hne|reflexivity|reflexivity].
Qed.

Lemma extraction_result_join blocks :
  blank (join (nl ++ nl) blocks) = false ->
  extraction_result blocks = join (nl ++ nl) blocks.
Proof. destruct blocks; [discriminate|reflexivity]. Qed.

(** One call of [read_pdf] on an existing file that PyMuPDF opens and
    whose scanned pages can all be read. *)
Lemma read_pdf_run config w path doc texts :
  fitz_installed w = true ->
  path_exists w path = Return true ->
  fitz_open w path = Return doc ->
  take (pages_scanned config (length doc)) doc = Return <$> texts ->
  let blocks := page_blocks 1 texts in
  let tr := [EvLog INFO (lit "Reading PDF from: " ++ path);
             EvPathExists path; EvFitzOpen path]
            ++ get_text_calls 0 (pages_scanned config (length doc))
            ++ [EvDocClose] in
  run (read_pdf config w path)
  = (Return (extraction_result blocks),
     match blocks with
     | [] => tr
     | _ :: _ =>
         tr ++ [EvLog INFO
                  (lit "Successfully extracted "
                   ++ str_of_int (Z.of_nat (length (join (nl ++ nl) blocks)))
                   ++ lit " characters from PDF")]
     end).
Proof.
  intros Hfitz Hexists Hopen Htake. cbv zeta.
  unfold_read_pdf.
  rewrite Hfitz, Hexists, Hopen. cbn [negb app].
  rewrite (extract_pages_texts _ _ _ _ Htake), truthy_strip.
  fold (blank (join (nl ++ nl) (page_blocks 1 texts))).
  destruct (page_blocks 1 texts) as [|b bs] eqn:Hblocks.
  - cbn [join blank forallb negb extraction_result].
    rewrite <- !app_assoc. reflexivity.
  - rewrite <- Hblocks.
    rewrite join_page_blocks_not_blank by (rewrite Hblocks; discriminate).
    rewrite extraction_result_join
      by (apply join_page_blocks_not_blank; rewrite Hblocks; discriminate).
    cbn [negb]. rewrite <- !app_assoc. reflexivity.
Qed.

Lemma call_count_app which (tr1 tr2 : list event) :
  call_count which (tr1 ++ tr2)
  = (call_count which tr1 + call_count which tr2)%nat.
Proof. unfold call_count. now rewrite List.filter_app, length_app. Qed.

Lemma call_count_get_text_calls which first n :
  (forall page_num, which (EvGetText page_num) = false) ->
  call_count which (get_text_calls first n) = 0%nat.
Proof.
  intros Hwhich. unfold call_count, get_text_calls.
  revert first. induction n as [|n IH]; intros first; [reflexivity|].
  cbn [seq fmap list_fmap List.filter]. rewrite Hwhich. apply IH.
Qed.

Lemma page_blocks_all_blank first texts :
  Forall (fun text => blank text = true) texts ->
  page_blocks first texts = [].
Proof.
  intros Hall. revert first.
  induction Hall as [|text texts Hb _ IH]; intros first; [reflexivity|].
  now rewrite page_blocks_cons, Hb, IH.
Qed.

Lemma length_page_blocks first texts :
  length (page_blocks first texts)
  = length (List.filter nonblank_page (Return <$> texts)).
Proof.
  revert first. induction texts as [|text texts IH]; intros first;
    [reflexivity|].
  rewrite page_blocks_cons, length_app, IH. cbn [fmap list_fmap List.filter nonblank_page].
  destruct (blank text); reflexivity.
Qed.

(** C2 (as stated) fails: for a path with no entry the exception that
    leaves [read_pdf] is not of the document-missing class, it has the
    class of the failure that a page that cannot be read gives; and a
    path that is there but is no file, a directory, passes the test of
    line 65, so that [fitz.open] is called and the failure is the one of
    [fitz.open]. *)
Lemma missing_file_claim_counterexample :
  let config := default_config in
  let w := {| fitz_installed := true; path_status_of := fun _ => NoEntry;
              fitz_open := fun _ => Return [] |} in
  let w' := {| fitz_installed := true; path_status_of := fun _ => IsFile;
               fitz_open := fun _ =>
                 Return [Raise (mk_exn (OtherException (lit "ValueError"))
                                       (lit "bad page"))] |} in
  let w_dir := {| fitz_installed := true; path_status_of := fun _ => IsOther;
                  fitz_open := fun _ =>
                    Raise (mk_exn (OtherException (lit "FileDataError"))
                                  (lit "'reports' is no file")) |} in
  (path_exists w (lit "missing.pdf") = Return false
   /\ ~ (exists e, (run (read_pdf config w (lit "missing.pdf"))).1 = Raise e
                   /\ exn_type e = FileNotFoundError)
   /\ (exists e e', (run (read_pdf config w (lit "missing.pdf"))).1 = Raise e
         /\ (run (read_pdf config w' (lit "damaged.pdf"))).1 = Raise e'
         /\ exn_type e = exn_type e'))
  /\ (path_status_of w_dir (lit "reports") <> IsFile
      /\ run (read_pdf config w_dir (lit "reports"))
         = (Raise (mk_exn RuntimeError
                     (lit "Error reading PDF: 'reports' is no file")),
            [EvLog INFO (lit "Reading PDF from: reports");
             EvPathExists (lit "reports"); EvFitzOpen (lit "reports");
             EvLog ERROR (lit "Error reading PDF: 'reports' is no file")])).
Proof.
  cbv zeta. split; [split; [reflexivity|split]|split].
  - intros (e & Hrun & Htype). vm_compute in Hrun.
    injection Hrun as <-. discriminate Htype.
  - do 2 eexists. split; [|split]; vm_compute; reflexivity.
  - discriminate.
  - vm_compute. reflexivity.
Qed.

(** C2 (amended): for a path for which [Path.exists()] does not give
    [True], because there is no entry or because the look-up itself
    fails, [read_pdf] fails with a [RuntimeError], the class of all its
    failures; the document is never opened and the LLM is never invoked.
    When PyMuPDF can be imported the message is "Error reading PDF: "
    followed by "PDF file not found: " and the path when there is no
    entry, and by the message of the [OSError] when the look-up fails. *)
Theorem read_pdf_missing_file config w path :
  path_exists w path <> Return true ->
  exists e tr,
    run (read_pdf config w path) = (Raise e, tr)
    /\ exn_type e = RuntimeError
    /\ (fitz_installed w = true ->
        exn_str e
        = lit "Error reading PDF: "
          ++ match path_exists w path with
             | Return _ => lit "PDF file not found: " ++ path
             | Raise os_error => exn_str os_error
             end)
    /\ call_count is_fitz_open tr = 0%nat
    /\ call_count is_llm_invoke tr = 0%nat.
Proof.
  intros Hmissing.
  unfold_read_pdf.
  destruct (fitz_installed w).
  - unfold path_exists in *.
    destruct (path_status_of w path); try (now destruct Hmissing);
      cbv [negb read_pdf_handler is_ImportError is_Exception exn_type exn_str
           logger_error emit bind raise];
      cbn [app]; do 2 eexists; (split; [reflexivity|]); repeat split.
  - cbv [negb read_pdf_handler is_ImportError is_Exception exn_type exn_str
         logger_error emit bind raise].
    cbn [app]. do 2 eexists. split; [reflexivity|]. repeat split.
    discriminate.
Qed.

Lemma read_pdf_missing_file_witness :
  let w := {| fitz_installed := true; path_status_of := fun _ => NoEntry;
              fitz_open := fun _ => Return [] |} in
  exists e tr,
    run (read_pdf (default_config) w (lit "missing.pdf")) = (Raise e, tr)
    /\ exn_type e = RuntimeError
    /\ exn_str e = lit "Error reading PDF: PDF file not found: missing.pdf"
    /\ call_count is_fitz_open tr = 0%nat
    /\ call_count is_llm_invoke tr = 0%nat.
Proof.
  intros w.
  destruct (read_pdf_missing_file (default_config) w (lit "missing.pdf"))
    as (e & tr & Hrun & Htype & Hmsg & Hopen & Hllm); [discriminate|].
  exists e, tr. repeat split; try assumption. now apply Hmsg.
Defined.

(** The loop only adds calls of [get_text] to the trace. *)
Lemma scan_pages_trace doc (page_nums : list Z) : forall acc tr,
  exists calls,
    (scan_pages doc page_nums acc tr).2 = tr ++ calls
    /\ forall which, (forall page_num, which (EvGetText page_num) = false) ->
                     call_count which calls = 0%nat.
Proof.
  induction page_nums as [|page_num rest IH]; intros acc tr.
  - exists []. split; [simpl; now rewrite app_nil_r|reflexivity].
  - cbn [scan_pages]. cbv [bind get_text emit lift raise].
    destruct (doc !! Z.to_nat page_num) as [[text|e]|].
    + destruct (truthy (strip text));
        [destruct (IH (acc ++ [page_block page_num text])
                      (tr ++ [EvGetText page_num])) as (calls & -> & Hcalls)
        |destruct (IH acc (tr ++ [EvGetText page_num]))
           as (calls & -> & Hcalls)];
        exists (EvGetText page_num :: calls);
        (split; [now rewrite <- app_assoc|]);
        intros which Hwhich; unfold call_count; cbn [List.filter];
        rewrite Hwhich; now apply Hcalls.
    + exists [EvGetText page_num]. split; [reflexivity|].
      intros which Hwhich. unfold call_count. cbn [List.filter].
      now rewrite Hwhich.
    + exists [EvGetText page_num]. split; [reflexivity|].
      intros which Hwhich. unfold call_count. cbn [List.filter].
      now rewrite Hwhich.
Qed.

Lemma read_pdf_handler_raises e tr :
  exists e' tr', read_pdf_handler e tr = (Raise e', tr').
Proof.
  unfold read_pdf_handler.
  destruct (is_ImportError e); [do 2 eexists; reflexivity|].
  destruct (is_Exception e); do 2 eexists; reflexivity.
Qed.

(** On the paths on which [read_pdf] returns, the sentinel or the text,
    it has opened the document once and closed it once. *)
Lemma read_pdf_return_closes config w path result tr :
  run (read_pdf config w path) = (Return result, tr) ->
  call_count is_fitz_open tr = 1%nat /\ call_count is_doc_close tr = 1%nat.
Proof.
  assert (Hraise : forall e tr0,
            read_pdf_handler e tr0 = (Return result, tr) -> False).
  { intros e tr0 H. destruct (read_pdf_handler_raises e tr0) as (? & ? & H').
    congruence. }
  unfold_read_pdf.
  destruct (fitz_installed w); [|intros H; now apply Hraise in H].
  destruct (path_exists w path) as [[|]|os_error]; cbn [negb app];
    [|intros H; now apply Hraise in H ..].
  destruct (fitz_open w path) as [doc|e]; [|intros H; now apply Hraise in H].
  unfold extract_pages.
  match goal with
  | |- context [scan_pages doc ?nums ?acc ?tr0] =>
      destruct (scan_pages_trace doc nums acc tr0) as (calls & Htr & Hcalls);
      destruct (scan_pages doc nums acc tr0) as [[blocks|e] tr1]
  end; [|intros H; now apply Hraise in H].
  cbn [snd] in Htr. subst tr1.
  destruct (negb (truthy (strip (join (nl ++ nl) blocks))));
    intros H; apply (f_equal snd) in H; cbn [snd] in H; rewrite <- H;
    rewrite !call_count_app, !Hcalls by reflexivity;
    split; reflexivity.
Qed.

Lemma read_pdf_handler_trace e tr :
  exists logs,
    (read_pdf_handler e tr).2 = tr ++ logs
    /\ forall which, (forall level msg, which (EvLog level msg) = false) ->
                     call_count which logs = 0%nat.
Proof.
  unfold read_pdf_handler.
  destruct (is_ImportError e); [|destruct (is_Exception e)];
    try (eexists [_]; split; [reflexivity|];
         intros which Hwhich; unfold call_count; cbn [List.filter];
         now rewrite Hwhich).
  exists []. split; [simpl; now rewrite app_nil_r|reflexivity].
Qed.

(** On the paths on which [read_pdf] raises after it has opened the
    document, it has not closed it. *)
Lemma read_pdf_raise_leaves_open config w path doc e tr :
  fitz_installed w = true ->
  path_exists w path = Return true ->
  fitz_open w path = Return doc ->
  run (read_pdf config w path) = (Raise e, tr) ->
  call_count is_fitz_open tr = 1%nat /\ call_count is_doc_close tr = 0%nat.
Proof.
  intros Hfitz Hexists Hopen.
  unfold_read_pdf.
  rewrite Hfitz, Hexists, Hopen. cbn [negb app]. unfold extract_pages.
  match goal with
  | |- context [scan_pages doc ?nums ?acc ?tr0] =>
      destruct (scan_pages_trace doc nums acc tr0) as (calls & Htr & Hcalls);
      destruct (scan_pages doc nums acc tr0) as [[blocks|e'] tr1]
  end; cbn [snd] in Htr; subst tr1.
  - destruct (negb (truthy (strip (join (nl ++ nl) blocks))));
      discriminate.
  - destruct (read_pdf_handler_trace e' ([EvLog INFO (lit "Reading PDF from: " ++ path);
                EvPathExists path; EvFitzOpen path] ++ calls))
      as (logs & Hlogs & Hnone).
    intros H; apply (f_equal snd) in H; cbn [snd] in H; rewrite <- H.
    rewrite Hlogs.
    rewrite !call_count_app, !Hcalls, !Hnone by reflexivity.
    split; reflexivity.
Qed.

(** C3 at a document whose first page cannot be read: [read_pdf] has
    opened the document, fails, and has not closed it. *)
Theorem read_pdf_page_fault_leaves_handle_open :
  let w := {| fitz_installed := true; path_status_of := fun _ => IsFile;
              fitz_open := fun _ =>
                Return [Raise (mk_exn RuntimeError (lit "cannot load page"));
                        Return (lit "second page")] |} in
  exists e tr,
    run (read_pdf (default_config) w (lit "damaged.pdf")) = (Raise e, tr)
    /\ exn_str e = lit "Error reading PDF: cannot load page"
    /\ call_count is_fitz_open tr = 1%nat
    /\ call_count is_doc_close tr = 0%nat.
Proof.
  do 2 eexists. split; [vm_compute; reflexivity|].
  repeat split.
Qed.

(** C4 (as stated) fails: for a document whose pages are all blank
    [read_pdf] returns the sentinel, and [summarize_text] called with
    what was extracted invokes the LLM. *)
Lemma blank_document_claim_counterexample :
  let w := {| fitz_installed := true; path_status_of := fun _ => IsFile;
              fitz_open := fun _ => Return [Return (lit "  "); Return []] |} in
  let llm := fun _ : pystr =>
    Return (LlmSummarizer.plain_string (lit "There is nothing to summarize.")) in
  exists extracted,
    (run (read_pdf default_config w (lit "blank.pdf"))).1 = Return extracted
    /\ extracted = no_text_found
    /\ ~ (call_count is_llm_invoke
            (run (LlmSummarizer.summarize_text
                    (LlmSummarizer.default_config (lit "llm")) llm extracted)).2
          = 0%nat).
Proof.
  cbv zeta. exists no_text_found.
  split; [vm_compute; reflexivity|]. split; [reflexivity|].
  vm_compute. discriminate.
Qed.

(** C4 (amended): when every page scanned has blank text, [read_pdf]
    returns the string "No text content found in PDF": a result, not an
    exception, and not the empty string. It has then closed the document
    and, as in every call, has not invoked the LLM itself. Nothing skips
    the summary for this string: [summarize_text] called with it puts it
    into the prompt and invokes the LLM once. *)
Theorem read_pdf_blank_document config w path doc texts :
  fitz_installed w = true ->
  path_exists w path = Return true ->
  fitz_open w path = Return doc ->
  take (pages_scanned config (length doc)) doc = Return <$> texts ->
  Forall (fun text => blank text = true) texts ->
  exists tr,
    run (read_pdf config w path) = (Return no_text_found, tr)
    /\ no_text_found = lit "No text content found in PDF"
    /\ no_text_found <> []
    /\ call_count is_llm_invoke tr = 0%nat
    /\ call_count is_doc_close tr = 1%nat
    /\ forall summarizer_config llm,
         contains no_text_found
           (LlmSummarizer.build_prompt summarizer_config no_text_found) = true
         /\ EvLlmInvoke
              (LlmSummarizer.build_prompt summarizer_config no_text_found)
              ∈ (run (LlmSummarizer.summarize_text summarizer_config llm
                        no_text_found)).2
         /\ call_count is_llm_invoke
              (run (LlmSummarizer.summarize_text summarizer_config llm
                      no_text_found)).2 = 1%nat.
Proof.
  intros Hfitz Hexists Hopen Htake Hblank.
  pose proof (read_pdf_run config w path doc texts Hfitz Hexists Hopen Htake)
    as Hrun.
  cbv zeta in Hrun. rewrite (page_blocks_all_blank _ _ Hblank) in Hrun.
  eexists. split; [exact Hrun|].
  split; [reflexivity|]. split; [discriminate|].
  rewrite !call_count_app, !call_count_get_text_calls by reflexivity.
  split; [reflexivity|]. split; [reflexivity|].
  intros summarizer_config llm. split; [|split].
  - apply build_prompt_contains_text. vm_compute. discriminate.
  - apply summarize_text_sends_prompt.
  - destruct (summarize_text_trace summarizer_config llm no_text_found)
      as (logs & -> & Hlogs).
    now rewrite call_count_app, Hlogs.
Qed.

Lemma read_pdf_blank_document_witness :
  let w := {| fitz_installed := true; path_status_of := fun _ => IsFile;
              fitz_open := fun _ => Return [Return (lit "  "); Return []] |} in
  let llm := fun _ : pystr =>
    Return (LlmSummarizer.plain_string (lit "There is nothing to summarize.")) in
  exists tr,
    run (read_pdf (default_config) w (lit "blank.pdf"))
    = (Return no_text_found, tr)
    /\ call_count is_llm_invoke tr = 0%nat
    /\ call_count is_llm_invoke
         (run (LlmSummarizer.summarize_text
                 (LlmSummarizer.default_config (lit "llm")) llm
                 no_text_found)).2 = 1%nat.
Proof.
  intros w llm.
  destruct (read_pdf_blank_document (default_config) w (lit "blank.pdf")
              [Return (lit "  "); Return []] [lit "  "; []])
    as (tr & Hrun & _ & _ & Hllm & _ & Hsum);
    [reflexivity|reflexivity|reflexivity|reflexivity| |].
  - repeat constructor.
  - exists tr. split; [exact Hrun|]. split; [exact Hllm|].
    apply (Hsum (LlmSummarizer.default_config (lit "llm")) llm).
Defined.

Lemma or_int_nonzero (K b : Z) : K <> 0 -> or_int (Some K) b = K.
Proof. destruct K; simpl; congruence. Qed.

Lemma pages_scanned_limit config (n : nat) (K : Z) :
  max_pages config = Some K -> 1 <= K ->
  pages_scanned config n = min n (Z.to_nat K).
Proof.
  intros HK Hpos. unfold pages_scanned.
  rewrite HK, or_int_nonzero by lia. lia.
Qed.

Lemma take_min_length {A} (l : list A) (k : nat) :
  take (min (length l) k) l = take k l.
Proof.
  destruct (Nat.le_ge_cases (length l) k) as [Hle|Hge].
  - rewrite Nat.min_l by exact Hle. now rewrite !take_ge by lia.
  - now rewrite Nat.min_r by exact Hge.
Qed.

Lemma length_filter_le {A} (f : A -> bool) (l : list A) :
  (length (List.filter f l) <= length l)%nat.
Proof.
  induction l as [|x l IH]; simpl; [lia|].
  destruct (f x); simpl; lia.
Qed.

(** C5: with [max_pages = K >= 1], and the first [K] pages readable, the
    extractor scans exactly the first [min(N, K)] pages and the number of
    page blocks is the number of non-blank pages among them, which is
    [min(K, number of non-blank pages among the first K pages)]. *)
Theorem page_block_count config w path doc texts (K : Z) :
  max_pages config = Some K -> 1 <= K ->
  fitz_installed w = true ->
  path_exists w path = Return true ->
  fitz_open w path = Return doc ->
  take (Z.to_nat K) doc = Return <$> texts ->
  exists blocks,
    (forall tr, extract_pages config doc tr
                = (Return blocks,
                   tr ++ get_text_calls 0 (min (length doc) (Z.to_nat K))))
    /\ (run (read_pdf config w path)).1 = Return (extraction_result blocks)
    /\ Z.of_nat (length blocks)
       = Z.min K (Z.of_nat (length (List.filter nonblank_page
                                      (take (Z.to_nat K) doc))))
    /\ length blocks
       = length (List.filter nonblank_page
                   (take (min (length doc) (Z.to_nat K)) doc)).
Proof.
  intros HK Hpos Hfitz Hexists Hopen Htake.
  pose proof (pages_scanned_limit config (length doc) K HK Hpos) as Hscan.
  assert (Htake' : take (pages_scanned config (length doc)) doc
                   = Return <$> texts)
    by (rewrite Hscan, take_min_length; exact Htake).
  exists (page_blocks 1 texts). split; [|split; [|split]].
  - intros tr. rewrite <- Hscan. now apply extract_pages_texts.
  - now rewrite (read_pdf_run config w path doc texts).
  - rewrite length_page_blocks, Htake.
    pose proof (length_filter_le nonblank_page (Return <$> texts)) as Hle.
    assert (Hk : (length (Return <$> texts : document) <= Z.to_nat K)%nat)
      by (rewrite <- Htake, length_take; lia).
    lia.
  - now rewrite length_page_blocks, take_min_length, Htake.
Qed.

Lemma page_block_count_witness :
  let w := {| fitz_installed := true; path_status_of := fun _ => IsFile;
              fitz_open := fun _ =>
                Return [Return (lit "one"); Return (lit " ");
                        Return (lit "three"); Return (lit "four")] |} in
  exists blocks,
    (run (read_pdf (with_max_pages default_config (Some 3)) w (lit "a.pdf"))).1
    = Return (extraction_result blocks)
    /\ Z.of_nat (length blocks) = 2.
Proof.
  intros w.
  destruct (page_block_count (with_max_pages default_config (Some 3)) w
              (lit "a.pdf")
              [Return (lit "one"); Return (lit " ");
               Return (lit "three"); Return (lit "four")]
              [lit "one"; lit " "; lit "three"] 3)
    as (blocks & _ & Hrun & Hlen & _);
    [reflexivity|lia|reflexivity|reflexivity|reflexivity|reflexivity|].
  exists blocks. split; [exact Hrun|]. rewrite Hlen. reflexivity.
Defined.

(** The blocks are those of the pages that are not blank, each under the
    marker of the page's own number. *)
Lemma elem_of_page_blocks texts : forall first block,
  block ∈ page_blocks first texts
  <-> exists (i : nat) text,
        texts !! i = Some text /\ blank text = false
        /\ block = page_marker (first + i) ++ text.
Proof.
  induction texts as [|t texts IH]; intros first block.
  - split; [intros H; now apply elem_of_nil in H|].
    intros (i & text & Hi & _). discriminate Hi.
  - rewrite page_blocks_cons, elem_of_app, IH. split.
    + intros [Hhere|(i & text & Hi & Hb & ->)].
      * destruct (blank t) eqn:Hb; [now apply elem_of_nil in Hhere|].
        apply list_elem_of_singleton in Hhere as ->.
        exists 0%nat, t. now rewrite Nat.add_0_r.
      * exists (S i), text. now rewrite Nat.add_succ_r.
    + intros ([|i] & text & Hi & Hb & ->).
      * injection Hi as ->. left. rewrite Hb, Nat.add_0_r.
        now apply list_elem_of_singleton.
      * right. exists i, text. now rewrite Nat.add_succ_r.
Qed.

Lemma unlit_lit (a : string) : unlit (lit a) = a.
Proof.
  unfold unlit, lit. induction a as [|c a IH]; [reflexivity|].
  cbn [list_ascii_of_string List.map string_of_list_ascii].
  now rewrite ascii_N_embedding, IH.
Qed.

Lemma lit_inj (a b : string) : lit a = lit b -> a = b.
Proof.
  intros H. apply (f_equal unlit) in H. now rewrite !unlit_lit in H.
Qed.

Lemma to_int_nonnil (z : Z) :
  Z.to_int z <> Decimal.Pos Decimal.Nil /\ Z.to_int z <> Decimal.Neg Decimal.Nil.
Proof.
  destruct z as [|p|p]; simpl; split; try discriminate;
    intros [= H]; now apply DecimalPos.Unsigned.to_uint_nonnil in H.
Qed.

(** Decimal numerals tell the numbers apart. *)
Lemma str_of_int_inj (n m : Z) : str_of_int n = str_of_int m -> n = m.
Proof.
  intros H. apply lit_inj in H. apply DecimalZ.to_int_inj.
  apply (f_equal NilZero.int_of_string) in H.
  rewrite !NilZero.isi in H by apply to_int_nonnil. congruence.
Qed.

(** The marker tells the page number. *)
Lemma page_marker_inj (n m : nat) : page_marker n = page_marker m -> n = m.
Proof.
  unfold page_marker. intros H.
  apply app_inv_head in H.
  assert (Hlen : length (str_of_int (Z.of_nat n))
                 = length (str_of_int (Z.of_nat m))).
  { apply (f_equal (@length _)) in H. rewrite !length_app in H. lia. }
  apply (f_equal (take (length (str_of_int (Z.of_nat n))))) in H.
  rewrite take_app_length in H. rewrite Hlen, take_app_length in H.
  apply str_of_int_inj in H. lia.
Qed.

(** C6: the list of page blocks is the list of the scanned pages, the
    blank ones dropped and nothing put in their place, in page order,
    each block being the marker "--- Page n ---" of the page's own
    1-based number [n] and a line break, followed by the page's text;
    [read_pdf] returns these blocks joined. *)
Theorem page_blocks_in_source_order config w path doc texts :
  fitz_installed w = true ->
  path_exists w path = Return true ->
  fitz_open w path = Return doc ->
  take (pages_scanned config (length doc)) doc = Return <$> texts ->
  (forall tr, (extract_pages config doc tr).1 = Return (page_blocks 1 texts))
  /\ (run (read_pdf config w path)).1
     = Return (extraction_result (page_blocks 1 texts))
  /\ page_blocks 1 texts
     = (fun p => (lit "--- Page " ++ str_of_int (Z.of_nat p.1)
                  ++ lit " ---" ++ nl) ++ p.2)
         <$> List.filter (fun p => negb (forallb isspace p.2))
                         (zip (seq 1 (length texts)) texts)
  /\ (forall block,
        block ∈ page_blocks 1 texts
        <-> exists (i : nat) text,
              texts !! i = Some text /\ forallb isspace text = false
              /\ block = page_marker (i + 1) ++ text).
Proof.
  intros Hfitz Hexists Hopen Htake. split; [|split; [|split]].
  - intros tr. now rewrite (extract_pages_texts config doc texts tr Htake).
  - now rewrite (read_pdf_run config w path doc texts).
  - reflexivity.
  - intros block. rewrite elem_of_page_blocks.
    split; intros (i & text & Hi & Hb & ->); exists i, text;
      (split; [exact Hi|split; [exact Hb|]]);
      now rewrite (Nat.add_comm i 1).
Qed.

Lemma page_blocks_in_source_order_witness :
  let w := {| fitz_installed := true; path_status_of := fun _ => IsFile;
              fitz_open := fun _ =>
                Return [Return (lit "first page"); Return (lit "  ");
                        Return (lit "third page")] |} in
  (run (read_pdf default_config w (lit "a.pdf"))).1
  = Return (join (nl ++ nl) [page_marker 1 ++ lit "first page";
                             page_marker 3 ++ lit "third page"]).
Proof.
  intros w.
  destruct (page_blocks_in_source_order default_config w (lit "a.pdf")
              [Return (lit "first page"); Return (lit "  ");
               Return (lit "third page")]
              [lit "first page"; lit "  "; lit "third page"])
    as (_ & Hrun & _); [reflexivity|reflexivity|reflexivity|reflexivity|].
  exact Hrun.
Defined.

(** C10: with [max_pages = 0] the call of [read_pdf] is the call with no
    page limit: every page of the document is scanned. *)
Theorem max_pages_zero_scans_all_pages config w path :
  max_pages config = Some 0 ->
  (forall tr, read_pdf config w path tr
              = read_pdf (with_max_pages config None) w path tr)
  /\ (forall doc, pages_scanned config (length doc) = length doc)
  /\ (forall doc texts tr,
        doc = Return <$> texts ->
        extract_pages config doc tr
        = (Return (page_blocks 1 texts),
           tr ++ get_text_calls 0 (length doc))).
Proof.
  intros Hzero.
  assert (Hscan : forall doc : document,
            pages_scanned config (length doc) = length doc)
    by (intros doc; unfold pages_scanned; rewrite Hzero; simpl; lia).
  split; [|split].
  - intros tr. unfold read_pdf, try_except, read_pdf_body, bind, extract_pages.
    rewrite Hzero. reflexivity.
  - exact Hscan.
  - intros doc texts tr ->.
    pose proof (extract_pages_texts config (Return <$> texts) texts tr) as H.
    rewrite Hscan in H. apply H, take_ge. lia.
Qed.

Lemma max_pages_zero_scans_all_pages_witness :
  let doc : document :=
    [Return (lit "one"); Return (lit "two"); Return (lit "three")] in
  extract_pages (with_max_pages default_config (Some 0)) doc []
  = (Return (page_blocks 1 [lit "one"; lit "two"; lit "three"]),
     [EvGetText 0; EvGetText 1; EvGetText 2]).
Proof.
  intros doc.
  destruct (max_pages_zero_scans_all_pages
              (with_max_pages default_config (Some 0))
              {| fitz_installed := true; path_status_of := fun _ => IsFile;
                 fitz_open := fun _ => Return doc |} (lit "a.pdf"))
    as (_ & _ & Hscan); [reflexivity|].
  apply (Hscan doc [lit "one"; lit "two"; lit "three"] []). reflexivity.
Defined.

End Reader.

(** * Further behaviour of the two functions *)

(** ** [summarize_text]: failures, logging, the size of the prompt *)

Section SummarizerBehaviour.

Import LlmSummarizer.

Implicit Types (config : LLMSummarizerConfig) (text style : pystr)
  (llm : llm_client) (r : response) (e : exn) (tr : list event).

Lemma summarize_text_handler_run e tr :
  summarize_text_handler e tr
  = if is_Exception e
    then (Raise (mk_exn RuntimeError
                   (lit "Error generating summary: " ++ exn_str e)),
          tr ++ [EvLog ERROR (lit "Error generating summary: " ++ exn_str e)])
    else (Raise e, tr).
Proof. unfold summarize_text_handler. destruct (is_Exception e); reflexivity. Qed.

(** [len] fails with a [TypeError] only, which is an [Exception]. *)
Lemma py_len_raises (v : pyval) e :
  py_len v = Raise e -> is_Exception e = true.
Proof. destruct v; cbn [py_len]; intros H; now inversion H. Qed.

(** X1: when [llm.ainvoke] raises an [Exception], [summarize_text]
    raises a [RuntimeError] whose message is "Error generating summary: "
    followed by [str(e)], logs that message once at level ERROR, and has
    called the LLM once: there is no second attempt. *)
Theorem summarize_text_backend_failure config llm text e :
  llm (build_prompt config text) = Raise e ->
  is_Exception e = true ->
  run (summarize_text config llm text)
  = (Raise (mk_exn RuntimeError (lit "Error generating summary: " ++ exn_str e)),
     [EvLog INFO (lit "Generating summary using LLM (style: "
                  ++ summary_style config ++ lit ")");
      EvLlmInvoke (build_prompt config text);
      EvLog ERROR (lit "Error generating summary: " ++ exn_str e)]).
Proof.
  intros Hllm Hexn. rewrite summarize_text_run. cbv zeta.
  now rewrite Hllm, summarize_text_handler_run, Hexn.
Qed.

Lemma summarize_text_backend_failure_witness :
  (run (summarize_text (default_config (lit "llm"))
          (fun _ => Raise (mk_exn (OtherException (lit "TimeoutError"))
                                  (lit "timed out")))
          (lit "some text"))).1
  = Raise (mk_exn RuntimeError (lit "Error generating summary: timed out")).
Proof.
  rewrite (summarize_text_backend_failure (default_config (lit "llm")) _
             (lit "some text")
             (mk_exn (OtherException (lit "TimeoutError")) (lit "timed out")));
    reflexivity.
Defined.

(** X2: an exception of the LLM call that is not an [Exception] (a
    cancellation, a keyboard interrupt) leaves [summarize_text] as it is:
    not wrapped, and without an ERROR log. *)
Theorem summarize_text_base_exception config llm text e :
  llm (build_prompt config text) = Raise e ->
  is_Exception e = false ->
  (run (summarize_text config llm text)).1 = Raise e
  /\ error_logs (run (summarize_text config llm text)).2 = [].
Proof.
  intros Hllm Hexn. rewrite summarize_text_run. cbv zeta.
  rewrite Hllm, summarize_text_handler_run, Hexn. split; reflexivity.
Qed.

Lemma summarize_text_base_exception_witness :
  (run (summarize_text (default_config (lit "llm"))
          (fun _ => Raise (mk_exn CancelledError []))
          (lit "some text"))).1
  = Raise (mk_exn CancelledError []).
Proof.
  apply (summarize_text_base_exception (default_config (lit "llm")) _
           (lit "some text") (mk_exn CancelledError [])); reflexivity.
Defined.

(** X3: every call of [summarize_text] calls the LLM exactly once,
    whatever the text (the empty text included) and whatever the LLM
    answers. *)
Theorem summarize_text_invokes_once config llm text :
  call_count is_llm_invoke (run (summarize_text config llm text)).2 = 1%nat.
Proof.
  rewrite summarize_text_run. cbv zeta.
  assert (Hh : forall e,
            call_count is_llm_invoke
              (summarize_text_handler e
                 [EvLog INFO (lit "Generating summary using LLM (style: "
                              ++ summary_style config ++ lit ")");
                  EvLlmInvoke (build_prompt config text)]).2 = 1%nat)
    by (intros e; rewrite summarize_text_handler_run;
        destruct (is_Exception e); reflexivity).
  destruct (llm _) as [r|e]; [|apply Hh].
  destruct (py_len _); [reflexivity|apply Hh].
Qed.

(** X4: what [summarize_text] returns comes from the answer of the LLM:
    a returned value is the normalized response and has a length; a
    raised exception is a [RuntimeError] with the message prefix
    "Error generating summary: ", or the exception of the LLM call
    itself when that is not an [Exception]. *)
Theorem summarize_text_outcome config llm text :
  match (run (summarize_text config llm text)).1 with
  | Return summary =>
      exists r n, llm (build_prompt config text) = Return r
                  /\ summary = normalize r /\ py_len summary = Return n
  | Raise e =>
      (exn_type e = RuntimeError
       /\ exists cause, exn_str e = lit "Error generating summary: " ++ cause)
      \/ (is_Exception e = false
          /\ llm (build_prompt config text) = Raise e)
  end.
Proof.
  rewrite summarize_text_run. cbv zeta.
  destruct (llm _) as [r|e] eqn:Hllm.
  - destruct (py_len (normalize r)) as [n|e] eqn:Hlen.
    + exists r, n. auto.
    + rewrite summarize_text_handler_run, (py_len_raises _ _ Hlen).
      cbn [fst exn_type exn_str]. left; eauto.
  - rewrite summarize_text_handler_run.
    destruct (is_Exception e) eqn:Hexn; cbn [fst exn_type exn_str];
      [left; eauto|right; auto].
Qed.

(** X5: the ERROR log tells the outcome: nothing is logged at level
    ERROR when [summarize_text] returns or lets a non-[Exception] pass,
    and when it raises an [Exception] the one ERROR message is the
    message of that exception. *)
Theorem summarize_text_error_log config llm text :
  match (run (summarize_text config llm text)).1 with
  | Return _ => error_logs (run (summarize_text config llm text)).2 = []
  | Raise e =>
      error_logs (run (summarize_text config llm text)).2
      = if is_Exception e then [exn_str e] else []
  end.
Proof.
  rewrite summarize_text_run. cbv zeta.
  destruct (llm _) as [r|e].
  - destruct (py_len (normalize r)) as [n|e]; [reflexivity|].
    rewrite summarize_text_handler_run.
    destruct (is_Exception e) eqn:Hexn; cbn [fst snd]; [reflexivity|].
    now rewrite Hexn.
  - rewrite summarize_text_handler_run.
    destruct (is_Exception e) eqn:Hexn; cbn [fst snd]; [reflexivity|].
    now rewrite Hexn.
Qed.

(** X6: a [content] that is not a string is not turned into one: a list
    is returned as it is, and [None] or an [int], which have no length,
    make the call fail with a [RuntimeError] although the LLM has
    answered. *)
Theorem summarize_text_content_not_str config llm text r :
  llm (build_prompt config text) = Return r ->
  (forall items, resp_content r = Some (PyList items) ->
     (run (summarize_text config llm text)).1 = Return (PyList items))
  /\ (resp_content r = Some PyNone ->
      (run (summarize_text config llm text)).1
      = Raise (mk_exn RuntimeError
          (lit "Error generating summary: object of type 'NoneType' has no len()")))
  /\ (forall z, resp_content r = Some (PyInt z) ->
      (run (summarize_text config llm text)).1
      = Raise (mk_exn RuntimeError
          (lit "Error generating summary: object of type 'int' has no len()"))).
Proof.
  intros Hllm.
  repeat split; intros; rewrite summarize_text_run; cbv zeta;
    rewrite Hllm; unfold normalize;
    match goal with H : resp_content r = _ |- _ => rewrite H end;
    reflexivity.
Qed.

Lemma summarize_text_content_not_str_witness :
  let r := {| resp_content := Some (PyList [PyStr (lit "part one");
                                            PyStr (lit "part two")]);
              resp_str := lit "content=[...]" |} in
  (run (summarize_text (default_config (lit "llm"))
          (fun _ => Return r) (lit "some text"))).1
  = Return (PyList [PyStr (lit "part one"); PyStr (lit "part two")]).
Proof.
  intros r.
  apply (summarize_text_content_not_str (default_config (lit "llm"))
           (fun _ => Return r) (lit "some text") r); reflexivity.
Defined.

(** X7: below the bound nothing of the text is lost: two texts of at most
    10,000 characters that give the same prompt for the same
    configuration are the same text. *)
Theorem build_prompt_inj_within_bound config text text' :
  Z.of_nat (length text) <= 10000 ->
  Z.of_nat (length text') <= 10000 ->
  build_prompt config text = build_prompt config text' ->
  text = text'.
Proof.
  intros Hlen Hlen'. unfold build_prompt.
  apply truncation_marker_within in Hlen as Hm.
  apply truncation_marker_within in Hlen' as Hm'.
  rewrite Hm, Hm', !slice_to_nonneg, !take_ge by lia.
  intros H. apply app_inv_head in H.
  now apply app_inv_tail in H.
Qed.

Lemma build_prompt_inj_within_bound_witness :
  lit "one text" = lit "one text".
Proof.
  apply (build_prompt_inj_within_bound (default_config (lit "llm"))
           (lit "one text") (lit "one text")); [vm_compute; discriminate ..|].
  reflexivity.
Defined.

(** X8: the prompt grows with the text only up to the bound: its length
    is the length of the template head, plus the length of the text but
    at most 10,000, plus 52 characters of template after the text, plus 3
    for the marker when the text is longer than 10,000. *)
Theorem build_prompt_length config text :
  Z.of_nat (length (build_prompt config text))
  = Z.of_nat (length (prompt_head config))
    + Z.min 10000 (Z.of_nat (length text))
    + (if 10000 <? Z.of_nat (length text) then 55 else 52).
Proof.
  unfold build_prompt, truncation_marker.
  rewrite !length_app, slice_to_nonneg, length_take by lia.
  change (length excerpt_line_rest) with 37%nat.
  change (length prompt_foot) with 14%nat.
  change (length nl) with 1%nat.
  destruct (Z.ltb_spec 10000 (Z.of_nat (length text)));
    [change (length (lit "...")) with 3%nat|change (length (@nil N)) with 0%nat];
    lia.
Qed.

Lemma has_char_app (c : pychar) (s t : pystr) :
  has_char c (s ++ t) = has_char c s || has_char c t.
Proof. apply existsb_app. Qed.

Lemma has_char_take (c : pychar) (n : nat) (s : pystr) :
  has_char c s = false -> has_char c (take n s) = false.
Proof.
  revert n. induction s as [|a s IH]; intros [|n]; simpl; try reflexivity.
  intros H. apply orb_false_iff in H as [-> H]. now rewrite IH.
Qed.

Lemma contains_has_char (c : pychar) (needle s : pystr) :
  contains (c :: needle) s = true -> has_char c s = true.
Proof.
  induction s as [|a s IH]; simpl; [discriminate|].
  destruct (N.eqb_spec c a) as [->|Hne]; simpl.
  - intros _. reflexivity.
  - exact IH.
Qed.

Lemma contains_app_r (needle s t : pystr) :
  contains needle t = true -> contains needle (s ++ t) = true.
Proof.
  intros H. induction s as [|a s IH]; simpl; [exact H|].
  rewrite IH. apply orb_true_r.
Qed.

Lemma numeral_string (d : Decimal.uint) :
  forallb numeral_char (lit (NilEmpty.string_of_uint d)) = true.
Proof. induction d; simpl; auto. Qed.

(** [str] of an [int] has digits and the minus sign only. *)
Lemma str_of_int_numeral (z : Z) : forallb numeral_char (str_of_int z) = true.
Proof.
  unfold str_of_int.
  destruct (Z.to_int z) as [d|d]; destruct d; simpl; try reflexivity;
    apply numeral_string.
Qed.

Lemma numeral_has_no_char (c : pychar) (s : pystr) :
  numeral_char c = false -> forallb numeral_char s = true ->
  has_char c s = false.
Proof.
  intros Hc. induction s as [|a s IH]; simpl; [reflexivity|].
  intros H. apply andb_true_iff in H as [Ha Hs].
  rewrite (IH Hs), orb_false_r.
  destruct (N.eqb_spec c a) as [->|]; [congruence|reflexivity].
Qed.

(** X9: the style is looked up as it is written: "brief" and "detailed"
    select their own clause, and every other string, "comprehensive"
    among them, the comprehensive one; there is no fourth clause. *)
Theorem style_instruction_table config :
  style_instruction config
  = if decide (summary_style config = lit "brief")
    then lit "Create a brief, concise summary in 2-3 sentences."
    else if decide (summary_style config = lit "detailed")
    then lit "Create a detailed summary with thorough analysis of all key aspects."
    else lit "Create a comprehensive summary that captures all major points.".
Proof.
  unfold style_instruction.
  rewrite lookup_total_alt, style_instructions_comprehensive.
  unfold style_instructions. rewrite !lookup_insert, lookup_empty.
  repeat case_decide; try reflexivity; try congruence;
    match goal with
    | Hkey : lit _ = summary_style _, Hstyle : summary_style _ = lit _ |- _ =>
        rewrite Hstyle in Hkey; discriminate Hkey
    end.
Qed.

(** Find a needle that starts one of the parts of a concatenation. *)
Ltac find_in_parts :=
  repeat first
    [ apply contains_startswith, startswith_app
    | rewrite <- app_assoc
    | apply contains_app_r ].

(** X10: the key-points parts of the prompt follow the switch: with
    [include_key_points] the prompt has the line "## Key Points" and the
    instruction asking for the points; without it the letter K, and so
    the words "Key Points", come into the prompt only with the text. *)
Theorem key_points_follow_switch config text :
  (include_key_points config = true ->
   contains (lit "## Key Points") (build_prompt config text) = true
   /\ contains (lit "After the summary, provide 5-7 key points as bullet points.")
               (build_prompt config text) = true)
  /\ (include_key_points config = false ->
      has_char 75 text = false ->
      has_char 75 (build_prompt config text) = false
      /\ contains (lit "Key Points") (build_prompt config text) = false).
Proof.
  split.
  - intros Hkp.
    split; unfold build_prompt, prompt_head, key_points_format,
             key_points_instruction; rewrite Hkp; find_in_parts.
  - intros Hkp Htext.
    assert (Hnone : has_char 75 (build_prompt config text) = false).
    { unfold build_prompt, prompt_head, key_points_format,
        key_points_instruction, truncation_marker.
      rewrite Hkp, style_instruction_table, slice_to_nonneg by lia.
      rewrite !has_char_app, (has_char_take _ _ _ Htext).
      rewrite (numeral_has_no_char 75 _ eq_refl (str_of_int_numeral _)).
      destruct (10000 <? _); repeat case_decide; reflexivity. }
    split; [exact Hnone|].
    destruct (contains _ _) eqn:Hc; [|reflexivity].
    apply (contains_has_char 75 (lit "ey Points")) in Hc. congruence.
Qed.

Lemma key_points_follow_switch_witness :
  contains (lit "## Key Points")
    (build_prompt (default_config (lit "llm")) (lit "some text")) = true.
Proof.
  apply (key_points_follow_switch (default_config (lit "llm")) (lit "some text")).
  reflexivity.
Defined.

End SummarizerBehaviour.

(** ** [read_pdf]: failures, page limits, the shape of the result *)

Section ReaderBehaviour.

Import PdfReader.

Implicit Types (config : PDFReaderConfig) (w : world) (doc : document)
  (path text : pystr) (texts blocks : list pystr) (e : exn)
  (tr : list event).

Ltac unfold_read_pdf :=
  cbv [run read_pdf try_except read_pdf_body import_fitz bind logger_info
       emit exists_ open_ lift ret raise close].

Lemma read_pdf_handler_run e tr :
  read_pdf_handler e tr
  = if is_ImportError e
    then (Raise (mk_exn RuntimeError
            (lit "PyMuPDF not installed. Please install with: pip install PyMuPDF")),
          tr ++ [EvLog ERROR
            (lit "PyMuPDF not installed. Please install with: pip install PyMuPDF")])
    else if is_Exception e
    then (Raise (mk_exn RuntimeError (lit "Error reading PDF: " ++ exn_str e)),
          tr ++ [EvLog ERROR (lit "Error reading PDF: " ++ exn_str e)])
    else (Raise e, tr).
Proof.
  unfold read_pdf_handler.
  destruct (is_ImportError e); [reflexivity|].
  destruct (is_Exception e); reflexivity.
Qed.

(** The loop on a document whose pages can be read up to one that
    raises: it stops there, and the blocks built so far are dropped. *)
Lemma scan_pages_fault doc texts e : forall start rest_nums acc tr,
  (forall i text, texts !! i = Some text ->
                  doc !! (start + i)%nat = Some (Return text)) ->
  doc !! (start + length texts)%nat = Some (Raise e) ->
  scan_pages doc ((Z.of_nat <$> seq start (S (length texts))) ++ rest_nums)
             acc tr
  = (Raise e, tr ++ get_text_calls start (S (length texts))).
Proof.
  induction texts as [|text texts IH]; intros start rest_nums acc tr Hdoc He.
  - cbn [length seq fmap list_fmap app scan_pages].
    cbv [bind get_text emit lift]. rewrite Nat2Z.id.
    rewrite Nat.add_0_r in He. now rewrite He.
  - cbn [length] in He |- *. rewrite Nat.add_succ_r in He.
    change (seq start (S (S (length texts))))
      with (start :: seq (S start) (S (length texts))).
    cbn [fmap list_fmap app scan_pages].
    cbv [bind get_text emit lift]. rewrite Nat2Z.id.
    pose proof (Hdoc 0%nat text eq_refl) as H0.
    rewrite Nat.add_0_r in H0. rewrite H0.
    assert (Hrest : forall i t, texts !! i = Some t ->
                      doc !! (S start + i)%nat = Some (Return t)).
    { intros i t Hi. specialize (Hdoc (S i) t Hi).
      now rewrite Nat.add_succ_r in Hdoc. }
    unfold get_text_calls.
    change (seq start (S (S (length texts))))
      with (start :: seq (S start) (S (length texts))).
    cbn [fmap list_fmap].
    destruct (truthy (strip text));
      rewrite (IH (S start) rest_nums _ _ Hrest He);
      unfold get_text_calls; now rewrite <- app_assoc.
Qed.

Lemma extract_pages_fault config doc texts e (rest : document) tr :
  take (pages_scanned config (length doc)) doc
  = (Return <$> texts) ++ Raise e :: rest ->
  extract_pages config doc tr
  = (Raise e, tr ++ get_text_calls 0 (S (length texts))).
Proof.
  intros Htake.
  assert (Hlen : pages_scanned config (length doc)
                 = (S (length texts) + length rest)%nat).
  { apply (f_equal (@length _)) in Htake.
    rewrite length_take, length_app, length_fmap in Htake. cbn [length] in Htake.
    pose proof (pages_scanned_le config (length doc)). lia. }
  assert (Hlookup : forall i, (i < pages_scanned config (length doc))%nat ->
            doc !! i = ((Return <$> texts) ++ Raise e :: rest) !! i).
  { intros i Hi. rewrite <- Htake. symmetry. now apply lookup_take_lt. }
  unfold extract_pages. rewrite range_seq.
  fold (pages_scanned config (length doc)).
  rewrite Hlen, seq_app, fmap_app.
  apply scan_pages_fault.
  - intros i text Hi. cbn [Nat.add].
    pose proof (lookup_lt_Some _ _ _ Hi) as Hlt.
    rewrite Hlookup by lia.
    rewrite lookup_app_l by (rewrite length_fmap; lia).
    now rewrite list_lookup_fmap, Hi.
  - cbn [Nat.add]. rewrite Hlookup by lia.
    rewrite lookup_app_r by (rewrite length_fmap; lia).
    rewrite length_fmap, Nat.sub_diag. reflexivity.
Qed.

(** Either all pages can be read, or there is a first one that cannot. *)
Lemma pages_split (pages : document) :
  (exists texts, pages = Return <$> texts)
  \/ (exists texts e rest, pages = (Return <$> texts) ++ Raise e :: rest).
Proof.
  induction pages as [|[text|e] pages IH].
  - left. now exists [].
  - destruct IH as [(texts & ->)|(texts & e & rest & ->)].
    + left. now exists (text :: texts).
    + right. now exists (text :: texts), e, rest.
  - right. now exists [], e, pages.
Qed.

(** The six ways a call of [read_pdf] goes. *)
Lemma read_pdf_cases config w path :
  let log := EvLog INFO (lit "Reading PDF from: " ++ path) in
  (fitz_installed w = false
   /\ run (read_pdf config w path)
      = read_pdf_handler
          (mk_exn ModuleNotFoundError (lit "No module named 'fitz'")) [])
  \/ (exists os_error,
        fitz_installed w = true /\ path_exists w path = Raise os_error
        /\ run (read_pdf config w path)
           = read_pdf_handler os_error [log; EvPathExists path])
  \/ (fitz_installed w = true /\ path_exists w path = Return false
      /\ run (read_pdf config w path)
         = read_pdf_handler
             (mk_exn FileNotFoundError (lit "PDF file not found: " ++ path))
             [log; EvPathExists path])
  \/ (exists e,
        fitz_installed w = true /\ path_exists w path = Return true
        /\ fitz_open w path = Raise e
        /\ run (read_pdf config w path)
           = read_pdf_handler e [log; EvPathExists path; EvFitzOpen path])
  \/ (exists doc texts e rest,
        fitz_installed w = true /\ path_exists w path = Return true
        /\ fitz_open w path = Return doc
        /\ take (pages_scanned config (length doc)) doc
           = (Return <$> texts) ++ Raise e :: rest
        /\ run (read_pdf config w path)
           = read_pdf_handler e
               ([log; EvPathExists path; EvFitzOpen path]
                ++ get_text_calls 0 (S (length texts))))
  \/ (exists doc texts,
        fitz_installed w = true /\ path_exists w path = Return true
        /\ fitz_open w path = Return doc
        /\ take (pages_scanned config (length doc)) doc = Return <$> texts
        /\ run (read_pdf config w path)
           = (Return (extraction_result (page_blocks 1 texts)),
              [log; EvPathExists path; EvFitzOpen path]
              ++ get_text_calls 0 (pages_scanned config (length doc))
              ++ [EvDocClose]
              ++ match page_blocks 1 texts with
                 | [] => []
                 | _ :: _ =>
                     [EvLog INFO
                        (lit "Successfully extracted "
                         ++ str_of_int
                              (Z.of_nat (length (join (nl ++ nl)
                                                   (page_blocks 1 texts))))
                         ++ lit " characters from PDF")]
                 end)).
Proof.
  cbv zeta.
  destruct (fitz_installed w) eqn:Hfitz.
  2:{ left. split; [reflexivity|]. unfold_read_pdf. now rewrite Hfitz. }
  destruct (path_exists w path) as [[|]|os_error] eqn:Hexists.
  2:{ do 2 right; left. repeat split. unfold_read_pdf.
      now rewrite Hfitz, Hexists. }
  2:{ right; left. exists os_error. repeat split. unfold_read_pdf.
      now rewrite Hfitz, Hexists. }
  destruct (fitz_open w path) as [doc|e] eqn:Hopen.
  2:{ do 3 right; left. exists e. repeat split.
      unfold_read_pdf. now rewrite Hfitz, Hexists, Hopen. }
  destruct (pages_split (take (pages_scanned config (length doc)) doc))
    as [(texts & Htake)|(texts & e & rest & Htake)].
  - do 5 right. exists doc, texts. repeat split; try assumption.
    rewrite (read_pdf_run config w path doc texts Hfitz Hexists Hopen Htake).
    cbv zeta. f_equal.
    destruct (page_blocks 1 texts); now rewrite <- ?app_assoc, ?app_nil_r.
  - do 4 right; left. exists doc, texts, e, rest.
    repeat split; try assumption.
    unfold_read_pdf. rewrite Hfitz, Hexists, Hopen. cbn [negb app].
    now rewrite (extract_pages_fault _ _ _ _ _ _ Htake).
Qed.

Lemma error_logs_app tr1 tr2 :
  error_logs (tr1 ++ tr2) = error_logs tr1 ++ error_logs tr2.
Proof. apply omap_app. Qed.

Lemma error_logs_get_text_calls first n :
  error_logs (get_text_calls first n) = [].
Proof.
  unfold get_text_calls. revert first.
  induction n as [|n IH]; intros first; [reflexivity|]. apply IH.
Qed.

Lemma get_text_pages_app tr1 tr2 :
  get_text_pages (tr1 ++ tr2) = get_text_pages tr1 ++ get_text_pages tr2.
Proof. apply omap_app. Qed.

Lemma get_text_pages_calls first n :
  get_text_pages (get_text_calls first n) = Z.of_nat <$> seq first n.
Proof.
  unfold get_text_calls. revert first.
  induction n as [|n IH]; intros first; [reflexivity|].
  cbn [seq fmap list_fmap]. cbn [get_text_pages omap list_omap].
  f_equal. apply IH.
Qed.

(** X11: without PyMuPDF every call fails in the same way, whatever the
    path: a [RuntimeError] that says how to install it, logged once; the
    file system is not looked at. *)
Theorem read_pdf_without_pymupdf config w path :
  fitz_installed w = false ->
  run (read_pdf config w path)
  = (Raise (mk_exn RuntimeError
       (lit "PyMuPDF not installed. Please install with: pip install PyMuPDF")),
     [EvLog ERROR
        (lit "PyMuPDF not installed. Please install with: pip install PyMuPDF")]).
Proof.
  intros Hfitz. unfold_read_pdf. rewrite Hfitz.
  now rewrite read_pdf_handler_run.
Qed.

Lemma read_pdf_without_pymupdf_witness :
  (run (read_pdf default_config
          {| fitz_installed := false; path_status_of := fun _ => NoEntry;
             fitz_open := fun _ => Return [] |} (lit "missing.pdf"))).1
  = Raise (mk_exn RuntimeError
      (lit "PyMuPDF not installed. Please install with: pip install PyMuPDF")).
Proof.
  now rewrite read_pdf_without_pymupdf.
Defined.

(** X12: when [fitz.open] raises an [Exception] that is not an
    [ImportError], [read_pdf] raises a [RuntimeError] with the message
    "Error reading PDF: " followed by [str(e)], logs it once, and reads
    no page. *)
Theorem read_pdf_open_failure config w path e :
  fitz_installed w = true ->
  path_exists w path = Return true ->
  fitz_open w path = Raise e ->
  is_ImportError e = false ->
  is_Exception e = true ->
  run (read_pdf config w path)
  = (Raise (mk_exn RuntimeError (lit "Error reading PDF: " ++ exn_str e)),
     [EvLog INFO (lit "Reading PDF from: " ++ path);
      EvPathExists path; EvFitzOpen path;
      EvLog ERROR (lit "Error reading PDF: " ++ exn_str e)]).
Proof.
  intros Hfitz Hexists Hopen Himport Hexn. unfold_read_pdf.
  rewrite Hfitz, Hexists, Hopen. cbn [negb app].
  now rewrite read_pdf_handler_run, Himport, Hexn.
Qed.

Lemma read_pdf_open_failure_witness :
  (run (read_pdf default_config
          {| fitz_installed := true; path_status_of := fun _ => IsFile;
             fitz_open := fun _ =>
               Raise (mk_exn (OtherException (lit "FileDataError"))
                             (lit "Failed to open file 'notes.txt'.")) |}
          (lit "notes.txt"))).1
  = Raise (mk_exn RuntimeError
      (lit "Error reading PDF: Failed to open file 'notes.txt'.")).
Proof.
  now rewrite (read_pdf_open_failure _ _ _
                 (mk_exn (OtherException (lit "FileDataError"))
                         (lit "Failed to open file 'notes.txt'."))).
Defined.

(** X13: an [ImportError] raised by [fitz.open] is taken for a missing
    PyMuPDF: the [RuntimeError] says "PyMuPDF not installed", although
    the import has succeeded, and the message of the exception is lost. *)
Theorem read_pdf_import_error_in_open config w path e :
  fitz_installed w = true ->
  path_exists w path = Return true ->
  fitz_open w path = Raise e ->
  is_ImportError e = true ->
  run (read_pdf config w path)
  = (Raise (mk_exn RuntimeError
       (lit "PyMuPDF not installed. Please install with: pip install PyMuPDF")),
     [EvLog INFO (lit "Reading PDF from: " ++ path);
      EvPathExists path; EvFitzOpen path;
      EvLog ERROR
        (lit "PyMuPDF not installed. Please install with: pip install PyMuPDF")]).
Proof.
  intros Hfitz Hexists Hopen Himport. unfold_read_pdf.
  rewrite Hfitz, Hexists, Hopen. cbn [negb app].
  now rewrite read_pdf_handler_run, Himport.
Qed.

Lemma read_pdf_import_error_in_open_witness :
  (run (read_pdf default_config
          {| fitz_installed := true; path_status_of := fun _ => IsFile;
             fitz_open := fun _ =>
               Raise (mk_exn ImportError (lit "cannot import name 'mupdf'")) |}
          (lit "a.pdf"))).1
  = Raise (mk_exn RuntimeError
      (lit "PyMuPDF not installed. Please install with: pip install PyMuPDF")).
Proof.
  now rewrite (read_pdf_import_error_in_open _ _ _
                 (mk_exn ImportError (lit "cannot import name 'mupdf'"))).
Defined.



Lemma get_text_pages_snoc_log tr level (msg : pystr) :
  get_text_pages (tr ++ [EvLog level msg]) = get_text_pages tr.
Proof. rewrite get_text_pages_app. apply app_nil_r. Qed.

Lemma read_pdf_handler_outcome e tr :
  exists e',
    (read_pdf_handler e tr).1 = Raise e'
    /\ error_logs (read_pdf_handler e tr).2
       = error_logs tr ++ (if is_Exception e' then [exn_str e'] else [])
    /\ get_text_pages (read_pdf_handler e tr).2 = get_text_pages tr
    /\ (is_Exception e' = true ->
        exn_type e' = RuntimeError
        /\ (exn_str e'
            = lit "PyMuPDF not installed. Please install with: pip install PyMuPDF"
            \/ exists cause, exn_str e' = lit "Error reading PDF: " ++ cause)).
Proof.
  rewrite read_pdf_handler_run.
  destruct (is_ImportError e); [|destruct (is_Exception e) eqn:Hexn];
    eexists; cbn [fst snd]; (split; [reflexivity|]).
  - rewrite error_logs_app, get_text_pages_snoc_log.
    split; [reflexivity|]. split; [reflexivity|]. intros _. eauto.
  - rewrite error_logs_app, get_text_pages_snoc_log.
    split; [reflexivity|]. split; [reflexivity|]. intros _. eauto.
  - rewrite Hexn, app_nil_r. split; [reflexivity|]. split; [reflexivity|].
    discriminate.
Qed.

(** X15: every failure of [read_pdf] that is an [Exception] is a
    [RuntimeError], with the install hint or the prefix
    "Error reading PDF: " as its message, and that message is the one
    ERROR message logged; a call that returns, or that lets a
    non-[Exception] pass, logs nothing at level ERROR. *)
Theorem read_pdf_failures config w path :
  match (run (read_pdf config w path)).1 with
  | Return _ => error_logs (run (read_pdf config w path)).2 = []
  | Raise e =>
      error_logs (run (read_pdf config w path)).2
      = (if is_Exception e then [exn_str e] else [])
      /\ (is_Exception e = true ->
          exn_type e = RuntimeError
          /\ (exn_str e
              = lit "PyMuPDF not installed. Please install with: pip install PyMuPDF"
              \/ exists cause, exn_str e = lit "Error reading PDF: " ++ cause))
  end.
Proof.
  destruct (read_pdf_cases config w path)
    as [(_ & ->)|[(os_error & _ & _ & ->)|[(_ & _ & ->)|[(e & _ & _ & _ & ->)
       |[(doc & texts & e & rest & _ & _ & _ & _ & ->)
        |(doc & texts & _ & _ & _ & _ & ->)]]]]].
  1-5: match goal with
       | |- context [read_pdf_handler ?e ?tr] =>
           destruct (read_pdf_handler_outcome e tr) as (e' & -> & -> & _ & H)
       end;
       split; [|exact H].
  - reflexivity.
  - reflexivity.
  - reflexivity.
  - reflexivity.
  - now rewrite error_logs_app, error_logs_get_text_calls.
  - cbn [fst snd].
    rewrite !error_logs_app, error_logs_get_text_calls.
    destruct (page_blocks 1 texts); reflexivity.
Qed.

Lemma page_blocks_start first texts :
  page_blocks first texts <> [] ->
  startswith (lit "--- Page ")
    (join (nl ++ nl) (page_blocks first texts)) = true.
Proof.
  unfold page_blocks.
  destruct (List.filter _ _) as [|p [|q rest]]; intros Hne;
    [now destruct Hne|reflexivity|reflexivity].
Qed.

(** X16: what [read_pdf] returns is never blank: it is the sentinel
    "No text content found in PDF", or it starts with a page marker. The
    sentinel does not start with one, so the two are told apart. *)
Theorem read_pdf_result_shape config w path result tr :
  run (read_pdf config w path) = (Return result, tr) ->
  blank result = false
  /\ (result = no_text_found
      \/ startswith (lit "--- Page ") result = true)
  /\ startswith (lit "--- Page ") no_text_found = false.
Proof.
  intros Hrun.
  destruct (read_pdf_cases config w path)
    as [(_ & H)|[(os_error & _ & _ & H)|[(_ & _ & H)|[(e & _ & _ & _ & H)
       |[(doc & texts & e & rest & _ & _ & _ & _ & H)
        |(doc & texts & _ & _ & _ & _ & H)]]]]];
    rewrite H in Hrun.
  1-5: match type of Hrun with
       | read_pdf_handler ?e ?tr0 = _ =>
           destruct (read_pdf_handler_outcome e tr0) as (e' & He' & _);
           rewrite Hrun in He'; discriminate He'
       end.
  apply (f_equal fst) in Hrun. cbn [fst] in Hrun.
  assert (Hres : result = extraction_result (page_blocks 1 texts))
    by congruence.
  rewrite Hres. split; [|split; [|reflexivity]].
  - destruct (page_blocks 1 texts) as [|b bs] eqn:Hb; [reflexivity|].
    rewrite <- Hb. rewrite extraction_result_join;
      apply join_page_blocks_not_blank; rewrite Hb; discriminate.
  - destruct (page_blocks 1 texts) as [|b bs] eqn:Hb; [now left|].
    right. rewrite <- Hb.
    rewrite extraction_result_join
      by (apply join_page_blocks_not_blank; rewrite Hb; discriminate).
    apply page_blocks_start. rewrite Hb. discriminate.
Qed.

Lemma read_pdf_result_shape_witness :
  startswith (lit "--- Page ")
    (lit "--- Page 2 ---" ++ nl ++ lit "second page") = true.
Proof.
  destruct (read_pdf_result_shape default_config
              {| fitz_installed := true; path_status_of := fun _ => IsFile;
                 fitz_open := fun _ =>
                   Return [Return []; Return (lit "second page")] |}
              (lit "a.pdf")
              (lit "--- Page 2 ---" ++ nl ++ lit "second page")
              [EvLog INFO (lit "Reading PDF from: a.pdf");
               EvPathExists (lit "a.pdf"); EvFitzOpen (lit "a.pdf");
               EvGetText 0; EvGetText 1; EvDocClose;
               EvLog INFO (lit "Successfully extracted 26 characters from PDF")])
    as (_ & [Hs|Hs] & _); [vm_compute; reflexivity|discriminate Hs|exact Hs].
Defined.

(** X17: pages are read in order from the first, without gaps; never a
    page number outside the document, and with a limit [K >= 1] never
    more than [K] pages. *)
Theorem read_pdf_pages_read config w path :
  exists m : nat,
    get_text_pages (run (read_pdf config w path)).2 = Z.of_nat <$> seq 0 m
    /\ match fitz_open w path with
       | Return doc =>
           (m <= length doc)%nat
           /\ forall K, max_pages config = Some K -> 1 <= K -> Z.of_nat m <= K
       | Raise _ => m = 0%nat
       end.
Proof.
  assert (Hbound : forall doc (m : nat),
            (m <= pages_scanned config (length doc))%nat ->
            (m <= length doc)%nat
            /\ forall K, max_pages config = Some K -> 1 <= K -> Z.of_nat m <= K).
  { intros doc m Hm. split.
    - pose proof (pages_scanned_le config (length doc)). lia.
    - intros K HK Hpos.
      rewrite (pages_scanned_limit config _ K HK Hpos) in Hm. lia. }
  destruct (read_pdf_cases config w path)
    as [(_ & ->)|[(os_error & _ & _ & ->)|[(_ & _ & ->)
       |[(e & _ & _ & Hopen & ->)
       |[(doc & texts & e & rest & _ & _ & Hopen & Htake & ->)
        |(doc & texts & _ & _ & Hopen & Htake & ->)]]]]].
  1-5: match goal with
       | |- context [read_pdf_handler ?e ?tr] =>
           destruct (read_pdf_handler_outcome e tr) as (e' & _ & _ & -> & _)
       end.
  - exists 0%nat. split; [reflexivity|].
    destruct (fitz_open w path) as [doc|]; [|reflexivity].
    apply Hbound. lia.
  - exists 0%nat. split; [reflexivity|].
    destruct (fitz_open w path) as [doc|]; [|reflexivity].
    apply Hbound. lia.
  - exists 0%nat. split; [reflexivity|].
    destruct (fitz_open w path) as [doc|]; [|reflexivity].
    apply Hbound. lia.
  - exists 0%nat. rewrite Hopen. split; reflexivity.
  - exists (S (length texts)). rewrite Hopen. split.
    + now rewrite get_text_pages_app, get_text_pages_calls.
    + apply Hbound. apply (f_equal (@length _)) in Htake.
      rewrite length_take, length_app, length_fmap in Htake.
      cbn [length] in Htake. lia.
  - exists (pages_scanned config (length doc)). rewrite Hopen. split.
    + cbn [snd]. rewrite !get_text_pages_app, get_text_pages_calls.
      destruct (page_blocks 1 texts); cbn; now rewrite app_nil_r.
    + now apply Hbound.
Qed.

(** X18: a negative [max_pages] is accepted and reads nothing: the
    document is opened and closed, no page is read, and the result is the
    sentinel, whatever the document holds. *)
Theorem read_pdf_negative_limit config w path doc (K : Z) :
  max_pages config = Some K -> K < 0 ->
  fitz_installed w = true ->
  path_exists w path = Return true ->
  fitz_open w path = Return doc ->
  run (read_pdf config w path)
  = (Return no_text_found,
     [EvLog INFO (lit "Reading PDF from: " ++ path);
      EvPathExists path; EvFitzOpen path; EvDocClose]).
Proof.
  intros HK Hneg Hfitz Hexists Hopen.
  assert (Hscan : pages_scanned config (length doc) = 0%nat).
  { unfold pages_scanned. rewrite HK, or_int_nonzero by lia. lia. }
  rewrite (read_pdf_run config w path doc [] Hfitz Hexists Hopen)
    by (now rewrite Hscan).
  now rewrite Hscan.
Qed.

Lemma read_pdf_negative_limit_witness :
  (run (read_pdf (with_max_pages default_config (Some (-1)))
          {| fitz_installed := true; path_status_of := fun _ => IsFile;
             fitz_open := fun _ => Return [Return (lit "first page")] |}
          (lit "a.pdf"))).1
  = Return no_text_found.
Proof.
  now rewrite (read_pdf_negative_limit _ _ _ [Return (lit "first page")] (-1)).
Defined.

(** The loop looks at the document only at the page numbers it visits. *)
Lemma scan_pages_ext doc (doc' : document) (page_nums : list Z) :
  (forall n, n ∈ page_nums -> doc !! Z.to_nat n = doc' !! Z.to_nat n) ->
  forall acc tr,
    scan_pages doc page_nums acc tr = scan_pages doc' page_nums acc tr.
Proof.
  induction page_nums as [|n rest IH]; intros Hsame acc tr; [reflexivity|].
  cbn [scan_pages]. cbv [bind get_text emit].
  rewrite <- (Hsame n) by (apply elem_of_cons; now left).
  assert (Hrest : forall k, k ∈ rest ->
                    doc !! Z.to_nat k = doc' !! Z.to_nat k)
    by (intros k Hk; apply Hsame, elem_of_cons; now right).
  destruct (doc !! Z.to_nat n) as [[text|e]|]; [|reflexivity|reflexivity].
  cbv [lift]. destruct (truthy (strip text)); now apply IH.
Qed.

Lemma extract_pages_first_pages config doc (K : Z) tr :
  max_pages config = Some K -> 1 <= K ->
  extract_pages config doc tr
  = extract_pages (with_max_pages config None) (take (Z.to_nat K) doc) tr.
Proof.
  intros HK Hpos. unfold extract_pages. cbn [with_max_pages max_pages or_int].
  rewrite HK, or_int_nonzero by lia.
  rewrite length_take, Z.min_id.
  replace (Z.of_nat (Z.to_nat K `min` length doc))
    with (Z.min (Z.of_nat (length doc)) K) by lia.
  apply scan_pages_ext. intros n Hn.
  rewrite range_seq in Hn. apply list_elem_of_fmap in Hn as (i & -> & Hi).
  apply elem_of_seq in Hi. rewrite Nat2Z.id.
  symmetry. apply lookup_take_lt. lia.
Qed.

(** X19: a limit of [K >= 1] pages is the same as no limit on the
    document cut after its first [K] pages: the two calls have the same
    outcome and make the same calls. *)
Theorem read_pdf_limit_is_cut config w path (K : Z) :
  max_pages config = Some K -> 1 <= K ->
  run (read_pdf config w path)
  = run (read_pdf (with_max_pages config None)
           (first_pages (Z.to_nat K) w) path).
Proof.
  intros HK Hpos. unfold_read_pdf. unfold path_exists.
  cbn [first_pages fitz_installed path_status_of fitz_open].
  destruct (fitz_installed w); [|reflexivity].
  destruct (path_status_of w path); cbn [negb app]; try reflexivity;
    (destruct (fitz_open w path) as [doc|e]; [|reflexivity];
     now rewrite (extract_pages_first_pages config doc K _ HK Hpos)).
Qed.

Lemma read_pdf_limit_is_cut_witness :
  let w := {| fitz_installed := true; path_status_of := fun _ => IsFile;
              fitz_open := fun _ =>
                Return [Return (lit "first page"); Return (lit "second page");
                        Raise (mk_exn RuntimeError (lit "cannot load page"))] |} in
  run (read_pdf (with_max_pages default_config (Some 2)) w (lit "a.pdf"))
  = run (read_pdf default_config (first_pages 2 w) (lit "a.pdf")).
Proof.
  intros w.
  apply (read_pdf_limit_is_cut (with_max_pages default_config (Some 2)) w
           (lit "a.pdf") 2); [reflexivity|lia].
Defined.

Lemma page_blocks_app texts : forall first (more : list pystr),
  page_blocks first (texts ++ more)
  = page_blocks first texts ++ page_blocks (first + length texts) more.
Proof.
  induction texts as [|text texts IH]; intros first more.
  - cbn [app length]. now rewrite Nat.add_0_r.
  - cbn [app length]. rewrite !page_blocks_cons, IH, <- app_assoc.
    now rewrite Nat.add_succ_r.
Qed.

(** X20: raising the page limit only adds blocks at the end: on a
    document whose pages can all be read, the blocks for a limit [K] are
    the first blocks of those for any larger limit. *)
Theorem read_pdf_limit_monotone config texts (K K' : Z) tr :
  1 <= K -> K <= K' ->
  exists blocks blocks',
    (extract_pages (with_max_pages config (Some K)) (Return <$> texts) tr).1
    = Return blocks
    /\ (extract_pages (with_max_pages config (Some K')) (Return <$> texts) tr).1
       = Return blocks'
    /\ blocks `prefix_of` blocks'.
Proof.
  intros Hpos Hle.
  assert (Hrun : forall L, 1 <= L ->
            extract_pages (with_max_pages config (Some L)) (Return <$> texts) tr
            = (Return (page_blocks 1 (take (Z.to_nat L) texts)),
               tr ++ get_text_calls 0
                       (pages_scanned (with_max_pages config (Some L))
                          (length (Return <$> texts : document))))).
  { intros L HL. apply extract_pages_texts.
    rewrite (pages_scanned_limit (with_max_pages config (Some L)) _ L
               eq_refl HL), take_min_length.
    now rewrite fmap_take. }
  exists (page_blocks 1 (take (Z.to_nat K) texts)),
         (page_blocks 1 (take (Z.to_nat K') texts)).
  rewrite !Hrun by lia. split; [reflexivity|]. split; [reflexivity|].
  rewrite <- (take_drop (Z.to_nat K) (take (Z.to_nat K') texts)).
  rewrite take_take, Nat.min_l by lia.
  rewrite page_blocks_app. now apply prefix_app_r.
Qed.

Lemma read_pdf_limit_monotone_witness :
  exists blocks blocks',
    (extract_pages (with_max_pages default_config (Some 1))
       (Return <$> [lit "one"; lit "two"; lit "three"]) []).1 = Return blocks
    /\ (extract_pages (with_max_pages default_config (Some 2))
          (Return <$> [lit "one"; lit "two"; lit "three"]) []).1 = Return blocks'
    /\ blocks `prefix_of` blocks'.
Proof.
  apply (read_pdf_limit_monotone default_config
           [lit "one"; lit "two"; lit "three"] 1 2 []); lia.
Defined.

(** Two numerals followed by the same character that is not a numeral
    character: the numerals end at that character. *)
Lemma numeral_split (c : pychar) (s1 s2 r1 r2 : pystr) :
  numeral_char c = false ->
  forallb numeral_char s1 = true -> forallb numeral_char s2 = true ->
  s1 ++ c :: r1 = s2 ++ c :: r2 ->
  s1 = s2 /\ r1 = r2.
Proof.
  intros Hc. revert s2.
  induction s1 as [|a s1 IH]; intros [|b s2] H1 H2 Heq; cbn in *.
  - now injection Heq as ->.
  - injection Heq as <- _. apply andb_true_iff in H2 as [H2 _]. congruence.
  - injection Heq as -> _. apply andb_true_iff in H1 as [H1 _]. congruence.
  - injection Heq as -> Heq.
    apply andb_true_iff in H1 as [_ H1]. apply andb_true_iff in H2 as [_ H2].
    destruct (IH s2 H1 H2 Heq) as [-> ->]. auto.
Qed.

(** X21: a page block tells its page and its text: two blocks are equal
    only for the same page number and the same text. *)
Theorem page_block_inj (page_num page_num' : Z) text text' :
  page_block page_num text = page_block page_num' text' ->
  page_num = page_num' /\ text = text'.
Proof.
  unfold page_block. intros H. apply app_inv_head in H.
  change (lit " ---" ++ nl ++ text) with (32%N :: (lit "---" ++ nl ++ text)) in H.
  change (lit " ---" ++ nl ++ text') with (32%N :: (lit "---" ++ nl ++ text')) in H.
  apply numeral_split in H as [Hnum Hrest];
    [|reflexivity|apply str_of_int_numeral ..].
  apply str_of_int_inj in Hnum.
  rewrite !(app_assoc (lit "---")) in Hrest. apply app_inv_head in Hrest.
  split; [lia|exact Hrest].
Qed.

Lemma page_block_inj_witness :
  (0 : Z) = 0 /\ lit "first page" = lit "first page".
Proof.
  apply (page_block_inj 0 0 (lit "first page") (lit "first page")).
  reflexivity.
Defined.

(** X22: on every path on which [read_pdf] returns, with the text or
    with the sentinel, it has opened the document once and closed it
    once, and it reads no page after the close. *)
Theorem read_pdf_returns_closed config w path result tr :
  run (read_pdf config w path) = (Return result, tr) ->
  call_count is_fitz_open tr = 1%nat
  /\ call_count is_doc_close tr = 1%nat
  /\ exists before after,
       tr = before ++ EvDocClose :: after /\ get_text_pages after = [].
Proof.
  intros Hrun.
  destruct (read_pdf_cases config w path)
    as [(_ & H)|[(os_error & _ & _ & H)|[(_ & _ & H)|[(e & _ & _ & _ & H)
       |[(doc & texts & e & rest & _ & _ & _ & _ & H)
        |(doc & texts & _ & _ & _ & _ & H)]]]]];
    rewrite H in Hrun.
  1-5: match type of Hrun with
       | read_pdf_handler ?e ?tr0 = _ =>
           destruct (read_pdf_handler_outcome e tr0) as (e' & He' & _);
           rewrite Hrun in He'; discriminate He'
       end.
  apply (f_equal snd) in Hrun. cbn [snd] in Hrun. subst tr.
  rewrite !call_count_app, !call_count_get_text_calls by reflexivity.
  split; [|split].
  - destruct (page_blocks 1 texts); reflexivity.
  - destruct (page_blocks 1 texts); reflexivity.
  - eexists _, _. split; [rewrite app_assoc; reflexivity|].
    destruct (page_blocks 1 texts); reflexivity.
Qed.

Lemma read_pdf_returns_closed_witness :
  call_count is_doc_close
    [EvLog INFO (lit "Reading PDF from: a.pdf");
     EvPathExists (lit "a.pdf"); EvFitzOpen (lit "a.pdf");
     EvGetText 0; EvDocClose] = 1%nat.
Proof.
  apply (read_pdf_returns_closed default_config
           {| fitz_installed := true; path_status_of := fun _ => IsFile;
              fitz_open := fun _ => Return [Return (lit " ")] |}
           (lit "a.pdf") no_text_found).
  vm_compute. reflexivity.
Defined.

End ReaderBehaviour.

(** ** The two functions one after the other *)

Section Pipeline.

Import PdfReader LlmSummarizer.

(** X23: neither function knows the other: the sentinel that [read_pdf]
    returns for a document without text is summarized like any text.
    [summarize_text] embeds it in the prompt and calls the LLM once. *)
Theorem sentinel_is_summarized reader_config w path doc texts
    (config : LLMSummarizerConfig) (llm : llm_client) :
  fitz_installed w = true ->
  path_exists w path = Return true ->
  fitz_open w path = Return doc ->
  take (pages_scanned reader_config (length doc)) doc = Return <$> texts ->
  Forall (fun text => blank text = true) texts ->
  exists extracted,
    (run (read_pdf reader_config w path)).1 = Return extracted
    /\ contains (lit "No text content found in PDF")
         (build_prompt config extracted) = true
    /\ EvLlmInvoke (build_prompt config extracted)
         ∈ (run (summarize_text config llm extracted)).2
    /\ call_count is_llm_invoke (run (summarize_text config llm extracted)).2
       = 1%nat.
Proof.
  intros Hfitz Hexists Hopen Htake Hblank.
  exists no_text_found. split; [|split; [|split]].
  - rewrite (read_pdf_run reader_config w path doc texts Hfitz Hexists Hopen Htake).
    cbv zeta. now rewrite (page_blocks_all_blank _ _ Hblank).
  - unfold build_prompt.
    rewrite (app_assoc (prompt_head config)).
    change (slice_to 10000 no_text_found) with (no_text_found ++ []).
    rewrite <- !app_assoc. rewrite (app_assoc (prompt_head config)).
    rewrite <- app_assoc. apply contains_app.
  - apply summarize_text_sends_prompt.
  - rewrite summarize_text_run. cbv zeta.
    destruct (llm _) as [r|e].
    + destruct (py_len _) as [n|e]; [reflexivity|].
      unfold summarize_text_handler. destruct (is_Exception e); reflexivity.
    + unfold summarize_text_handler. destruct (is_Exception e); reflexivity.
Qed.

Lemma sentinel_is_summarized_witness :
  let w := {| fitz_installed := true; path_status_of := fun _ => IsFile;
              fitz_open := fun _ => Return [Return (lit "  "); Return []] |} in
  exists extracted,
    (run (read_pdf PdfReader.default_config w (lit "blank.pdf"))).1
    = Return extracted
    /\ call_count is_llm_invoke
         (run (summarize_text (LlmSummarizer.default_config (lit "llm"))
                 (fun _ => Return (plain_string (lit "Nothing to summarize.")))
                 extracted)).2 = 1%nat.
Proof.
  intros w.
  destruct (sentinel_is_summarized PdfReader.default_config w (lit "blank.pdf")
              [Return (lit "  "); Return []] [lit "  "; []]
              (LlmSummarizer.default_config (lit "llm"))
              (fun _ => Return (plain_string (lit "Nothing to summarize."))))
    as (extracted & Hread & _ & _ & Hcount);
    [reflexivity|reflexivity|reflexivity|reflexivity|repeat constructor|].
  exists extracted. auto.
Defined.

End Pipeline.
